(** * CytoPipe: the per-plate aggregation job, its dispatcher and the
    package-path helper, embedded in Rocq.

  Sources embedded here:
  - [scripts/aggregate_cells.py]: [aggregate] and the [__main__] block;
  - [cytosnake/utils/cyto_paths.py]: [get_cytosnake_package_path] and its
    sibling [get_project_root].

  Modelling boundaries.  pandas, PyYAML, multiprocessing and pycytominer are
  libraries, not code of this repository: they are modelled at the level of
  the calls the scripts make.  A data frame is a header and rows of text
  cells (dtype inference is not modelled); the file system is seen through
  the readers and the write the job uses; the aggregation capability is a
  record of functions; what the job prints and writes is collected in a
  trace. *)

From Stdlib Require Import String Ascii List ZArith Lia Bool DecimalString.
Set Warnings "-register-all".
Import ListNotations.
Open Scope string_scope.

(** ** Python exceptions *)

Module Py.

(** The exception classes that the embedded code can let escape.
    [YAMLError] stands for whichever subclass of [yaml.YAMLError] the
    parser raises, [ExternalError] for an error of the aggregation
    capability, known by its class name only. *)
Inductive exn : Type :=
| FileNotFoundError (arg : string)
| YAMLError
| KeyError (key : string)
| TypeError
| IndexError
| AttributeError (name : string)
| UndefinedVariableError (name : string)
| ValueError (msg : string)
| OSError (msg : string)
| ExternalError (cls : string).

(** Method resolution order of each class, most specific first. *)
Definition mro (e : exn) : list string :=
  match e with
  | FileNotFoundError _ =>
      ["FileNotFoundError"; "OSError"; "Exception"; "BaseException"]
  | YAMLError => ["YAMLError"; "Exception"; "BaseException"]
  | KeyError _ => ["KeyError"; "LookupError"; "Exception"; "BaseException"]
  | TypeError => ["TypeError"; "Exception"; "BaseException"]
  | IndexError =>
      ["IndexError"; "LookupError"; "Exception"; "BaseException"]
  | AttributeError _ => ["AttributeError"; "Exception"; "BaseException"]
  | UndefinedVariableError _ =>
      ["UndefinedVariableError"; "NameError"; "Exception"; "BaseException"]
  | ValueError _ => ["ValueError"; "Exception"; "BaseException"]
  | OSError _ => ["OSError"; "Exception"; "BaseException"]
  | ExternalError cls => [cls; "Exception"; "BaseException"]
  end.

(** [isinstance(e, cls)] by class name. *)
Definition isinstance (e : exn) (cls : string) : bool :=
  existsb (String.eqb cls) (mro e).

(** [str(i)] for a Python [int]. *)
Definition str_of_int (z : Z) : string :=
  NilZero.string_of_int (Z.to_int z).

(** Values as [yaml.safe_load] builds them. Floats keep their literal. *)
Inductive obj : Type :=
| PyNone
| PyBool (b : bool)
| PyInt (z : Z)
| PyFloat (literal : string)
| PyStr (s : string)
| PyList (items : list obj)
| PyDict (items : list (obj * obj)).

Definition is_key (key : string) (k : obj) : bool :=
  match k with
  | PyStr s => String.eqb s key
  | _ => false
  end.

(** [o[key]] for a string [key]: only a dict can be subscripted by a
    string; a missing key is a [KeyError]. *)
Definition getitem (o : obj) (key : string) : exn + obj :=
  match o with
  | PyDict items =>
      match find (fun kv => is_key key (fst kv)) items with
      | Some kv => inr (snd kv)
      | None => inl (KeyError key)
      end
  | _ => inl TypeError
  end.

End Py.

(** ** [str] methods and [os.path] (POSIX flavour) *)

Module Str.

(** Splits [s] at the last occurrence of [c]: [Some (before, after)], or
    [None] when [c] does not occur. *)
Fixpoint rpartition (c : ascii) (s : string) : option (string * string) :=
  match s with
  | EmptyString => None
  | String a s' =>
      match rpartition c s' with
      | Some (p, q) => Some (String a p, q)
      | None => if Ascii.eqb a c then Some (EmptyString, s') else None
      end
  end.

(** [s.rsplit(sep, 1)] for a one-character separator. *)
Definition rsplit1 (sep : ascii) (s : string) : list string :=
  match rpartition sep s with
  | Some (p, q) => [p; q]
  | None => [s]
  end.

(** [os.path.basename(p)]: what follows the last slash. *)
Definition basename (p : string) : string :=
  match rpartition "/"%char p with
  | Some (_, q) => q
  | None => p
  end.

Definition startswith (s : string) (c : ascii) : bool :=
  match s with
  | String a _ => Ascii.eqb a c
  | EmptyString => false
  end.

Fixpoint endswith (s : string) (c : ascii) : bool :=
  match s with
  | EmptyString => false
  | String a EmptyString => Ascii.eqb a c
  | String _ s' => endswith s' c
  end.

(** One step of the loop of [posixpath.join]. *)
Definition join_step (path b : string) : string :=
  if startswith b "/"%char then b
  else if (String.eqb path "" || endswith path "/"%char)%bool then path ++ b
  else path ++ "/" ++ b.

(** [os.path.join(a, *p)]. *)
Definition os_path_join (a : string) (p : list string) : string :=
  fold_left join_step p a.

(** Does [c] occur in [s]? *)
Fixpoint contains (c : ascii) (s : string) : bool :=
  match s with
  | EmptyString => false
  | String a s' => (Ascii.eqb a c || contains c s')%bool
  end.

End Str.

(** ** The part of pandas that the job calls *)

Module Pandas.

(** A frame: column labels and rows of text cells, in row order. *)
Record DataFrame : Type := {
  columns : list string;
  rows : list (list string)
}.

Definition mem (s : string) (l : list string) : bool :=
  existsb (String.eqb s) l.

(** Position of the first column labelled [name]. *)
Fixpoint col_index (name : string) (cols : list string) : option nat :=
  match cols with
  | [] => None
  | c :: cols' =>
      if String.eqb c name then Some 0
      else option_map S (col_index name cols')
  end.

Definition cell (i : nat) (row : list string) : string := nth i row "".

(** The right-hand side of a comparison in a [query] expression: a local
    variable [@v] bound to a string or to a list of strings. *)
Inductive operand : Type :=
| OStr (s : string)
| OList (l : list string).

(** How [query] evaluates [col == @v] on one cell.  With a list on the
    right, pandas rewrites [==] to [in], so the cell is tested for
    membership. *)
Definition eval_eq (c : string) (v : operand) : bool :=
  match v with
  | OStr s => String.eqb c s
  | OList l => mem c l
  end.

(** [df.query("col == @v")]. *)
Definition query_eq (df : DataFrame) (col : string) (v : operand)
  : Py.exn + DataFrame :=
  match col_index col (columns df) with
  | None => inl (Py.UndefinedVariableError col)
  | Some i =>
      inr {| columns := columns df;
             rows := filter (fun r => eval_eq (cell i r) v) (rows df) |}
  end.

(** [df.<name>.values]: the cells of one column. *)
Definition column_values (df : DataFrame) (name : string)
  : Py.exn + list string :=
  match col_index name (columns df) with
  | None => inl (Py.AttributeError name)
  | Some i => inr (map (cell i) (rows df))
  end.

(** [values[0]]. *)
Definition values_0 (values : list string) : Py.exn + string :=
  match values with
  | [] => inl Py.IndexError
  | v :: _ => inr v
  end.

(** Labels present on both sides get the suffixes [_x] and [_y]. *)
Definition suffixed (own other : list string) (suffix : string)
  : list string :=
  map (fun c => if mem c other then c ++ suffix else c) own.

(** The right rows whose key cell equals that of the left row [l]. *)
Definition matches (i j : nat) (right_rows : list (list string))
  (l : list string) : list (list string) :=
  filter (fun r => String.eqb (cell i l) (cell j r)) right_rows.

(** [left.merge(right, left_on=.., right_on=..)] with [how] left at its
    default, ["inner"]: one output row per pair of rows with equal keys,
    in the order of the left rows. *)
Definition merge (left right : DataFrame) (left_on right_on : string)
  : Py.exn + DataFrame :=
  match col_index right_on (columns right) with
  | None => inl (Py.KeyError right_on)
  | Some j =>
      match col_index left_on (columns left) with
      | None => inl (Py.KeyError left_on)
      | Some i =>
          inr {| columns :=
                   (suffixed (columns left) (columns right) "_x"
                    ++ suffixed (columns right) (columns left) "_y")%list;
                 rows := flat_map
                           (fun l => map (fun r => (l ++ r)%list)
                                         (matches i j (rows right) l))
                           (rows left) |}
      end
  end.

(** The cells of [row] that sit under a label outside [labels]. *)
Fixpoint drop_cells (labels cols : list string) (row : list string)
  : list string :=
  match cols, row with
  | c :: cols', x :: row' =>
      if mem c labels then drop_cells labels cols' row'
      else x :: drop_cells labels cols' row'
  | _, _ => []
  end.

(** [repr] of a list of labels, as in ['WellRow', 'WellCol']. *)
Definition repr_labels (labels : list string) : string :=
  "[" ++ String.concat ", " (map (fun l => "'" ++ l ++ "'") labels) ++ "]".

(** [df.drop(labels, axis="columns")]: labels that are not columns are a
    [KeyError] whose message lists them all. *)
Definition drop (df : DataFrame) (labels : list string)
  : Py.exn + DataFrame :=
  match filter (fun l => negb (mem l (columns df))) labels with
  | [] =>
      inr {| columns := filter (fun c => negb (mem c labels)) (columns df);
             rows := map (drop_cells labels (columns df)) (rows df) |}
  | missing => inl (Py.KeyError (repr_labels missing ++ " not found in axis"))
  end.

(** A delimited text file, before quoting: separator and records. *)
Record CsvFile : Type := {
  sep : string;
  records : list (list string)
}.

(** [df.to_csv(path, sep=.., header=.., index=..)]: with [index] each
    record starts with the row label, and the header with an empty one. *)
Definition to_csv (df : DataFrame) (sep : string) (header index : bool)
  : CsvFile :=
  let label (k : nat) : list string :=
    if index then [Py.str_of_int (Z.of_nat k)] else [] in
  let head : list (list string) :=
    if header then [((if index then [""] else []) ++ columns df)%list]
    else [] in
  {| sep := sep;
     records :=
       (head
        ++ map (fun kr => label (fst kr) ++ snd kr)
               (combine (seq 0 (List.length (rows df))) (rows df)))%list |}.

End Pandas.

(** ** The job driver: [aggregate] of [scripts/aggregate_cells.py] *)

Module Job.
Import Pandas.

Definition TAB : string := String (ascii_of_nat 9) EmptyString.

(** The arguments [aggregate] gives to the [SingleCells] constructor. *)
Record SingleCellsArgs : Type := {
  sql_file : string;
  strata : Py.obj;
  image_cols : Py.obj;
  aggregation_operation : Py.obj;
  output_file : Py.obj;
  merge_cols : Py.obj;
  add_image_features : Py.obj;
  image_feature_categories : Py.obj;
  features : Py.obj;
  load_image_data : Py.obj;
  subsample_frac : Py.obj;
  subsampling_random_state : Py.obj;
  fields_of_view : Py.obj;
  fields_of_view_feature : string;
  object_feature : Py.obj
}.

(** What a job does to the outside: lines printed, the construction of
    the capability, and the two writes. *)
Inductive event : Type :=
| Print (line : string)
| Construct (args : SingleCellsArgs)
| ToCsv (path : string) (file : CsvFile)
| AggregateProfiles (output_file compression_options : string).

(** A computation that logs events and either raises or returns. *)
Record run (A : Type) : Type := {
  trace : list event;
  result : Py.exn + A
}.
Arguments trace {A} _.
Arguments result {A} _.

Definition ret {A : Type} (a : A) : run A :=
  {| trace := []; result := inr a |}.

Definition raise {A : Type} (e : Py.exn) : run A :=
  {| trace := []; result := inl e |}.

Definition emit (ev : event) : run unit :=
  {| trace := [ev]; result := inr tt |}.

Definition lift {A : Type} (r : Py.exn + A) : run A :=
  {| trace := []; result := r |}.

Definition bind {A B : Type} (m : run A) (k : A -> run B) : run B :=
  match result m with
  | inl e => {| trace := trace m; result := inl e |}
  | inr a => {| trace := (trace m ++ trace (k a))%list;
                result := result (k a) |}
  end.

Notation "x <- m ;; k" := (bind m (fun x => k))
  (at level 61, m at next level, right associativity).
Notation "m ;;; k" := (bind m (fun _ => k))
  (at level 61, right associativity).

Definition print (line : string) : run unit := emit (Print line).

(** What a job reads from: the file system and the libraries.
    - [absolute p]: [Path(p).absolute()], resolved by the process;
    - [open_text p]: the text of the file, [None] when there is none;
    - [safe_load text]: the parsed document, [None] when the text is not
      valid YAML;
    - [read_csv p]: the table in the file, [None] when there is none;
    - [to_csv_error p]: the error of opening [p] for writing (missing
      directory, no permission), [None] when the file can be written;
    - [SingleCells], [count_cells], [aggregate_profiles]: the aggregation
      capability, each of which may raise. *)
Record World : Type := {
  absolute : string -> string;
  open_text : string -> option string;
  safe_load : string -> option Py.obj;
  read_csv : string -> option DataFrame;
  to_csv_error : string -> option Py.exn;
  SingleCells : SingleCellsArgs -> option Py.exn;
  count_cells : SingleCellsArgs -> Py.exn + DataFrame;
  aggregate_profiles : SingleCellsArgs -> string -> string -> option Py.exn
}.

Definition open_ (w : World) (path : string) : run string :=
  match open_text w path with
  | Some text => ret text
  | None => raise (Py.FileNotFoundError path)
  end.

Definition yaml_safe_load (w : World) (text : string) : run Py.obj :=
  match safe_load w text with
  | Some o => ret o
  | None => raise Py.YAMLError
  end.

Definition pd_read_csv (w : World) (path : string) : run DataFrame :=
  match read_csv w path with
  | Some df => ret df
  | None => raise (Py.FileNotFoundError path)
  end.

(** [df.to_csv(path, ...)] for the rendered [file]: when the path cannot
    be opened the call raises and nothing is written. *)
Definition df_to_csv (w : World) (path : string) (file : CsvFile)
  : run unit :=
  match to_csv_error w path with
  | Some e => raise e
  | None => emit (ToCsv path file)
  end.

Definition may_raise (r : option Py.exn) : run unit :=
  match r with
  | Some e => raise e
  | None => ret tt
  end.

(** Lines 42-47: the parameter section of the configuration file. *)
Definition load_config (w : World) (config : string) : run Py.obj :=
  let aggregate_config_path := absolute w config in
  yaml_contents <- open_ w aggregate_config_path ;;
  loaded <- yaml_safe_load w yaml_contents ;;
  single_cell_config <- lift (Py.getitem loaded "single_cell_config") ;;
  lift (Py.getitem single_cell_config "params").

(** Line 50: [os.path.basename(sql_file).rsplit(".", 1)], a list. *)
Definition plate_of (sql_file : string) : list string :=
  Str.rsplit1 "."%char (Str.basename sql_file).

(** Lines 52-54: the rows that the query selects, and the platemap name
    of the first of them. *)
Definition select_barcodes (barcode_platemap_df : DataFrame)
  (plate : list string) : Py.exn + DataFrame :=
  query_eq barcode_platemap_df "Assay_Plate_Barcode" (OList plate).

Definition lookup_platemap (barcode_platemap_df : DataFrame)
  (plate : list string) : run string :=
  selected <- lift (select_barcodes barcode_platemap_df plate) ;;
  names <- lift (column_values selected "Plate_Map_Name") ;;
  lift (values_0 names).

(** Line 55. *)
Definition platemap_path (metadata_dir platemap : string) : string :=
  Str.os_path_join metadata_dir ["platemap"; platemap ++ ".csv"].

(** Lines 58-77: the constructor call; its keyword arguments are read from
    the configuration in the order written. *)
Definition single_cells_args (sql_file : string) (aggregate_configs : Py.obj)
  : run SingleCellsArgs :=
  let sqlite_file := "sqlite:///" ++ sql_file in
  let cfg (key : string) := lift (Py.getitem aggregate_configs key) in
  a1 <- cfg "strata" ;;
  a2 <- cfg "image_cols" ;;
  a3 <- cfg "aggregation_operation" ;;
  a4 <- cfg "output_file" ;;
  a5 <- cfg "merge_cols" ;;
  a6 <- cfg "add_image_features" ;;
  a7 <- cfg "image_feature_categories" ;;
  a8 <- cfg "features" ;;
  a9 <- cfg "load_image_data" ;;
  a10 <- cfg "subsample_frac" ;;
  a11 <- cfg "subsampling_random_state" ;;
  a12 <- cfg "fields_of_view" ;;
  a13 <- cfg "object_feature" ;;
  ret {| sql_file := sqlite_file;
         strata := a1; image_cols := a2; aggregation_operation := a3;
         output_file := a4; merge_cols := a5; add_image_features := a6;
         image_feature_categories := a7; features := a8;
         load_image_data := a9; subsample_frac := a10;
         subsampling_random_state := a11; fields_of_view := a12;
         fields_of_view_feature := "Image_Metadata_Well";
         object_feature := a13 |}.

(** Lines 84-86: the count table joined to the platemap, three columns
    dropped. *)
Definition join_platemap (cell_count_df platemap_df : DataFrame)
  : Py.exn + DataFrame :=
  match merge cell_count_df platemap_df
              "Image_Metadata_Well" "well_position" with
  | inl e => inl e
  | inr merged => drop merged ["WellRow"; "WellCol"; "well_position"]
  end.

(** [aggregate], lines 10-92. *)
Definition aggregate (w : World)
  (sql_file metadata_dir barcode_path cell_count_out aggregate_file_out
   config : string) : run unit :=
  aggregate_configs <- load_config w config ;;
  let plate := plate_of sql_file in
  barcode_platemap_df <- pd_read_csv w barcode_path ;;
  platemap <- lookup_platemap barcode_platemap_df plate ;;
  let platemap_file := platemap_path metadata_dir platemap in
  platemap_df <- pd_read_csv w platemap_file ;;
  args <- single_cells_args sql_file aggregate_configs ;;
  emit (Construct args) ;;;
  may_raise (SingleCells w args) ;;;
  print "Counting cells within each well" ;;;
  cell_count_df <- lift (count_cells w args) ;;
  print ("Saving cell counts in: " ++ cell_count_out) ;;;
  cell_count_df <- lift (join_platemap cell_count_df platemap_df) ;;
  df_to_csv w cell_count_out (to_csv cell_count_df TAB true false) ;;;
  print "aggregating cells" ;;;
  emit (AggregateProfiles aggregate_file_out "gzip") ;;;
  may_raise (aggregate_profiles w args aggregate_file_out "gzip").

(** The files a run wrote, or asked the capability to write. *)
Definition is_write (ev : event) : bool :=
  match ev with
  | Print _ => false
  | Construct _ => false
  | ToCsv _ _ => true
  | AggregateProfiles _ _ => true
  end.

Definition writes {A : Type} (r : run A) : list event :=
  filter is_write (trace r).

(** The cell-count tables a run wrote. *)
Definition csv_written {A : Type} (r : run A) : list (string * CsvFile) :=
  flat_map (fun ev => match ev with
                      | ToCsv path file => [(path, file)]
                      | _ => []
                      end) (trace r).

End Job.

(** ** The dispatcher: the [__main__] block of [scripts/aggregate_cells.py] *)

Module Dispatcher.

(** The two kinds of iterables that the block zips: a list, and
    [itertools.repeat(x)], which never ends. *)
Inductive iterable (A : Type) : Type :=
| of_list (l : list A)
| itertools_repeat (x : A).
Arguments of_list {A} _.
Arguments itertools_repeat {A} _.

(** [next(it)]: [None] stands for [StopIteration]. *)
Definition next {A : Type} (it : iterable A) : option (A * iterable A) :=
  match it with
  | of_list [] => None
  | of_list (x :: l) => Some (x, of_list l)
  | itertools_repeat x => Some (x, itertools_repeat x)
  end.

(** The argument tuple of one call of [aggregate]. *)
Record JobArgs : Type := {
  sql_file : string;
  metadata_dir : string;
  barcode_path : string;
  cell_count_out : string;
  aggregate_file_out : string;
  config : string
}.

(** [list(zip(a, b, c, d, e, f))] with a list first: each round asks the
    iterables for their next item from left to right and stops at the
    first that has none. *)
Fixpoint zip6 (a : list string) (b c d e f : iterable string)
  : list JobArgs :=
  match a with
  | [] => []
  | x1 :: a' =>
      match next b with
      | None => []
      | Some (x2, b') =>
      match next c with
      | None => []
      | Some (x3, c') =>
      match next d with
      | None => []
      | Some (x4, d') =>
      match next e with
      | None => []
      | Some (x5, e') =>
      match next f with
      | None => []
      | Some (x6, f') =>
          {| sql_file := x1; metadata_dir := x2; barcode_path := x3;
             cell_count_out := x4; aggregate_file_out := x5; config := x6 |}
          :: zip6 a' b' c' d' e' f'
      end end end end end
  end.

(** The fields of the [snakemake] object that the block reads. *)
Record Snakemake : Type := {
  input_sql_files : list string;
  input_metadata : string;
  input_barcodes : string;
  output_cell_counts : list string;
  output_aggregate_profile : list string;
  params_aggregate_config : string;
  threads : Z
}.

(** Lines 98-108. *)
Definition inputs (sm : Snakemake) : list JobArgs :=
  let sqlfiles := input_sql_files sm in
  let cell_count_out := output_cell_counts sm in
  let aggregate_profile_out := output_aggregate_profile sm in
  let meta_data_dir := itertools_repeat (input_metadata sm) in
  let barcode_map := itertools_repeat (input_barcodes sm) in
  let config_path := itertools_repeat (params_aggregate_config sm) in
  zip6 sqlfiles meta_data_dir barcode_map (of_list cell_count_out)
       (of_list aggregate_profile_out) config_path.

(** The f-string of line 114. *)
Definition warning (n_cores len_inputs : Z) : string :=
  "WARNING: number of specified cores (" ++ Py.str_of_int n_cores
  ++ ") exceeds number of inputs (" ++ Py.str_of_int len_inputs
  ++ "), defaulting to " ++ Py.str_of_int len_inputs.

(** Lines 111-116: the lines printed and the final [n_cores]. *)
Definition clamp (n_cores len_inputs : Z) : list string * Z :=
  if (n_cores >? len_inputs)%Z
  then ([warning n_cores len_inputs], len_inputs)
  else ([], n_cores).

(** A pool that was created, and the outcome of every call it made. *)
Record Pool : Type := {
  processes : Z;
  outcomes : list (Job.run unit)
}.

Definition call (w : Job.World) (j : JobArgs) : Job.run unit :=
  Job.aggregate w (sql_file j) (metadata_dir j) (barcode_path j)
                (cell_count_out j) (aggregate_file_out j) (config j).

(** [pool.starmap(aggregate, inputs)]: the outcome that the call of each
    tuple has, each in a worker process reading the same world.  Which
    tuples are called when a job raises is given by [starmapstar] and
    [calls_of_batches] below. *)
Definition starmap (w : Job.World) (inputs : list JobArgs)
  : list (Job.run unit) :=
  map (call w) inputs.

(** The error of a failed call, the first by position; with several
    failed calls the pool re-raises the one that reports first. *)
Fixpoint first_error (outs : list (Job.run unit)) : option Py.exn :=
  match outs with
  | [] => None
  | o :: outs' =>
      match Job.result o with
      | inl e => Some e
      | inr _ => first_error outs'
      end
  end.

(** A run of the block: what it printed itself, the pool if one could be
    created, and the exception that ended the run, if any. *)
Record MainRun : Type := {
  stdout : list string;
  pool : option Pool;
  raised : option Py.exn
}.

(** Lines 95-122.  [mp.Pool(processes=n)] raises [ValueError] for [n < 1];
    [starmap] re-raises the error of a failed call. *)
Definition main (w : Job.World) (sm : Snakemake) : MainRun :=
  let inputs := inputs sm in
  let n_cores := threads sm in
  let len_inputs := Z.of_nat (List.length inputs) in
  let (printed, n_cores) := clamp n_cores len_inputs in
  if (n_cores <? 1)%Z then
    {| stdout := printed; pool := None;
       raised := Some (Py.ValueError
                         "Number of processes must be at least 1") |}
  else
    let outs := starmap w inputs in
    {| stdout := printed;
       pool := Some {| processes := n_cores; outcomes := outs |};
       raised := first_error outs |}.

(** How [Pool.starmap] runs the tuples.  [_map_async] cuts them in
    batches and each batch is one task of a worker. *)






End Dispatcher.

(** ** [cytosnake/utils/cyto_paths.py] *)

Module CytoPaths.

(** A [pathlib.Path]: its anchor and its components. *)
Record Path : Type := {
  anchor : string;
  parts : list string
}.

(** [p.parent]. *)
Definition parent (p : Path) : Path :=
  {| anchor := anchor p; parts := removelast (parts p) |}.

(** [p / name] for a relative, one-component [name]. *)
Definition truediv (p : Path) (name : string) : Path :=
  {| anchor := anchor p; parts := (parts p ++ [name])%list |}.

(** The file system: which paths exist. *)
Definition FileSystem : Type := Path -> bool.

(** The values that the guards test: a [bool], or a bound method that has
    not been called. *)
Inductive value : Type :=
| Bool (b : bool)
| BoundMethod (self : Path) (name : string).

(** [p.exists]: attribute access, the file system is not consulted. *)
Definition getattr_exists (p : Path) : value := BoundMethod p "exists".

(** [m()]: calling the bound method [exists] asks the file system. *)
Definition call (fs : FileSystem) (v : value) : value :=
  match v with
  | BoundMethod self _ => Bool (fs self)
  | Bool b => Bool b
  end.

(** Truth value testing: a method object defines neither [__bool__] nor
    [__len__], so it is true. *)
Definition truth (v : value) : bool :=
  match v with
  | Bool b => b
  | BoundMethod _ _ => true
  end.

(** Lines 66-87; [package_dir] is [Path(cytosnake.__path__[0])]. *)
Definition get_cytosnake_package_path (fs : FileSystem) (package_dir : Path)
  : Py.exn + Path :=
  let project_path := parent package_dir in
  let git_path := truediv project_path ".git" in
  if negb (truth (getattr_exists git_path)) then
    inl (Py.FileNotFoundError "Unable to find cytosnake package path")
  else inr project_path.

(** Lines 90-113; [cwd] is [Path().absolute()]. *)
Definition get_project_root (fs : FileSystem) (cwd : Path) : Py.exn + Path :=
  let project_dir := cwd in
  let project_folder := truediv project_dir ".cytosnake" in
  if negb (truth (call fs (getattr_exists project_folder))) then
    inl (Py.FileNotFoundError "Current directory is not a project folder")
  else inr project_dir.

(** [p.name]: the last component. *)
Definition name (p : Path) : string := last (parts p) "".

(** [p.is_absolute()] on POSIX: the path has a root. *)
Definition is_absolute (p : Path) : bool := negb (String.eqb (anchor p) "").

(** [p.absolute()] in a process whose working directory is [cwd]. *)
Definition absolute (cwd p : Path) : Path :=
  if is_absolute p then p
  else {| anchor := anchor cwd; parts := (parts cwd ++ parts p)%list |}.

(** [str(p)]. *)
Definition str (p : Path) : string :=
  match anchor p, parts p with
  | EmptyString, [] => "."
  | a, ps => a ++ String.concat "/" ps
  end.

(** What the guards and the directory scan accept: a [str] or a [Path]. *)
Inductive pathlike : Type :=
| PStr (s : string)
| PPath (p : Path).

(** [type(x)] as an f-string shows it. *)
Definition type_repr (x : pathlike) : string :=
  match x with
  | PStr _ => "<class 'str'>"
  | PPath _ => "<class 'pathlib.PosixPath'>"
  end.

(** Directories as the scan sees them: the entries of a directory, in the
    order the system lists them, and which paths are directories. *)
Record Listing : Type := {
  entries : Path -> list string;
  is_dir : Path -> bool
}.

(** [p.glob("*")]: the children of [p]. *)
Definition glob_star (ls : Listing) (p : Path) : list Path :=
  map (truediv p) (entries ls p).

(** A [dict] from names to path strings, in insertion order. *)
Definition dict : Type := list (string * string).

Fixpoint dict_set (d : dict) (k v : string) : dict :=
  match d with
  | [] => [(k, v)]
  | (k', v') :: d' =>
      if String.eqb k' k then (k, v) :: d' else (k', v') :: dict_set d' k v
  end.

Section Helpers.

(** [is_valid_path] of [cytosnake.guards.path_guards] and [file_search]
    of [cytosnake.utils.file_utils] are not among the embedded sources:
    they are taken as they are called. *)
Variable is_valid_path : pathlike -> bool.
Variable Found : Type.
Variable file_search : Path -> Py.exn + Found.

(** Lines 34-63; [None] for the argument left out. *)
Definition is_cytosnake_dir (fs : FileSystem) (cwd : Path)
  (dir_path : option pathlike) : Py.exn + bool :=
  let dir_path :=
    match dir_path with
    | None => PPath cwd
    | Some d => d
    end in
  if negb (is_valid_path dir_path) then
    inl (Py.ValueError ("dir_path must be either str or Path type, not: "
                        ++ type_repr dir_path))
  else
    match dir_path with
    | PStr _ =>
        (* [Path(str)]: the argument is the class [str], not the string *)
        inl Py.TypeError
    | PPath p =>
        let cyto_proj_dir := truediv p ".cytosnake" in
        inr (truth (call fs (getattr_exists cyto_proj_dir)))
    end.

(** Lines 116-137. *)
Definition get_workflow_fpaths (fs : FileSystem) (cwd : Path)
  : Py.exn + Found :=
  match get_project_root fs cwd with
  | inl e => inl e
  | inr proj_root_path =>
      let workflow_path := truediv proj_root_path "workflows" in
      if negb (is_valid_path (PPath workflow_path)) then
        inl (Py.FileNotFoundError "Unable to find workflow directory")
      else file_search workflow_path
  end.

(** Lines 140-153. *)
Definition get_config_fpaths (fs : FileSystem) (cwd : Path)
  : Py.exn + Found :=
  match get_project_root fs cwd with
  | inl e => inl e
  | inr proj_root_path =>
      let config_path := truediv proj_root_path "configs" in
      if negb (is_valid_path (PPath config_path)) then
        inl (Py.FileNotFoundError "Unable to find config directory")
      else file_search config_path
  end.

End Helpers.

Definition ignore_dirs : list string :=
  [".vscode"; ".git"; "CytoSnake.egg-info"].

(** The loop of lines 175-179 over the files still to visit. *)
Fixpoint collect_dirs (ls : Listing) (cwd : Path) (files : list Path)
  (all_dirs : dict) : dict :=
  match files with
  | [] => all_dirs
  | _file :: files' =>
      if existsb (String.eqb (name _file)) ignore_dirs then
        collect_dirs ls cwd files' all_dirs
      else if is_dir ls _file then
        collect_dirs ls cwd files'
                     (dict_set all_dirs (name _file)
                               (str (absolute cwd _file)))
      else collect_dirs ls cwd files' all_dirs
  end.

(** Lines 156-181. *)
Definition get_project_dirpaths (fs : FileSystem) (ls : Listing)
  (cwd : Path) : Py.exn + dict :=
  match get_project_root fs cwd with
  | inl e => inl e
  | inr proj_root_path =>
      inr (collect_dirs ls cwd (glob_star ls proj_root_path) [])
  end.

End CytoPaths.

(** ** Sample inputs: one plate, [PlateA], with platemap [MapX] *)

Module Sample.
Import Pandas.

Definition params : Py.obj :=
  Py.PyDict
    [(Py.PyStr "strata",
      Py.PyList [Py.PyStr "Image_Metadata_Plate";
                 Py.PyStr "Image_Metadata_Well"]);
     (Py.PyStr "image_cols",
      Py.PyList [Py.PyStr "TableNumber"; Py.PyStr "ImageNumber"]);
     (Py.PyStr "aggregation_operation", Py.PyStr "median");
     (Py.PyStr "output_file", Py.PyStr "none");
     (Py.PyStr "merge_cols",
      Py.PyList [Py.PyStr "TableNumber"; Py.PyStr "ImageNumber"]);
     (Py.PyStr "add_image_features", Py.PyBool false);
     (Py.PyStr "image_feature_categories", Py.PyList [Py.PyStr "Count"]);
     (Py.PyStr "features", Py.PyStr "infer");
     (Py.PyStr "load_image_data", Py.PyBool true);
     (Py.PyStr "subsample_frac", Py.PyFloat "1.0");
     (Py.PyStr "subsampling_random_state", Py.PyInt 0);
     (Py.PyStr "fields_of_view", Py.PyStr "all");
     (Py.PyStr "object_feature", Py.PyStr "Metadata_ObjectNumber")].

Definition document : Py.obj :=
  Py.PyDict [(Py.PyStr "single_cell_config",
              Py.PyDict [(Py.PyStr "params", params)])].

Definition barcodes : DataFrame :=
  {| columns := ["Assay_Plate_Barcode"; "Plate_Map_Name"];
     rows := [["PlateA"; "MapX"]] |}.

(** A table with a plate that is named like the extension of the data
    files. *)
Definition barcodes_with_sqlite : DataFrame :=
  {| columns := ["Assay_Plate_Barcode"; "Plate_Map_Name"];
     rows := [["sqlite"; "MapZ"]; ["PlateA"; "MapX"]] |}.

Definition platemap : DataFrame :=
  {| columns := ["WellRow"; "WellCol"; "well_position"; "treatment"];
     rows := [["A"; "01"; "A01"; "DMSO"]; ["A"; "02"; "A02"; "drugX"]] |}.

Definition counts : DataFrame :=
  {| columns := ["Image_Metadata_Well"; "cell_count"];
     rows := [["A01"; "12"]; ["A02"; "7"]] |}.

(** A count table with a well, [B07], that the platemap does not list. *)
Definition counts_with_B07 : DataFrame :=
  {| columns := ["Image_Metadata_Well"; "cell_count"];
     rows := [["A01"; "12"]; ["B07"; "5"]] |}.

Definition world : Job.World :=
  {| Job.absolute := fun p => "/work/" ++ p;
     Job.open_text := fun p =>
       if String.eqb p "/work/configs/aggregate.yaml"
       then Some "single_cell_config: {params: {...}}" else None;
     Job.safe_load := fun text =>
       if String.eqb text "single_cell_config: {params: {...}}"
       then Some document else None;
     Job.read_csv := fun p =>
       if String.eqb p "data/barcode.csv" then Some barcodes
       else if String.eqb p "data/metadata/platemap/MapX.csv"
            then Some platemap
            else None;
     Job.to_csv_error := fun _ => None;
     Job.SingleCells := fun _ => None;
     Job.count_cells := fun _ => inr counts;
     Job.aggregate_profiles := fun _ _ _ => None |}.

(** [world] without the platemap file. *)
Definition world_without_platemap : Job.World :=
  {| Job.absolute := Job.absolute world;
     Job.open_text := Job.open_text world;
     Job.safe_load := Job.safe_load world;
     Job.read_csv := fun p =>
       if String.eqb p "data/barcode.csv" then Some barcodes else None;
     Job.to_csv_error := Job.to_csv_error world;
     Job.SingleCells := Job.SingleCells world;
     Job.count_cells := Job.count_cells world;
     Job.aggregate_profiles := Job.aggregate_profiles world |}.

(** [world] with a configuration file that is not YAML. *)
Definition world_bad_yaml : Job.World :=
  {| Job.absolute := Job.absolute world;
     Job.open_text := fun p =>
       if String.eqb p "/work/configs/aggregate.yaml"
       then Some "single_cell_config: [" else None;
     Job.safe_load := Job.safe_load world;
     Job.read_csv := Job.read_csv world;
     Job.to_csv_error := Job.to_csv_error world;
     Job.SingleCells := Job.SingleCells world;
     Job.count_cells := Job.count_cells world;
     Job.aggregate_profiles := Job.aggregate_profiles world |}.

(** [world] with a configuration that has no [single_cell_config]. *)
Definition world_no_section : Job.World :=
  {| Job.absolute := Job.absolute world;
     Job.open_text := Job.open_text world;
     Job.safe_load := fun text =>
       if String.eqb text "single_cell_config: {params: {...}}"
       then Some (Py.PyDict [(Py.PyStr "other", Py.PyNone)]) else None;
     Job.read_csv := Job.read_csv world;
     Job.to_csv_error := Job.to_csv_error world;
     Job.SingleCells := Job.SingleCells world;
     Job.count_cells := Job.count_cells world;
     Job.aggregate_profiles := Job.aggregate_profiles world |}.

(** The job of [PlateA]. *)
Definition run_PlateA (w : Job.World) : Job.run unit :=
  Job.aggregate w "data/PlateA.sqlite" "data/metadata" "data/barcode.csv"
                "results/PlateA_cellcounts.tsv" "results/PlateA.csv.gz"
                "configs/aggregate.yaml".

(** The job of a plate that the barcode table does not list. *)
Definition run_PlateB (w : Job.World) : Job.run unit :=
  Job.aggregate w "data/PlateB.sqlite" "data/metadata" "data/barcode.csv"
                "results/PlateB_cellcounts.tsv" "results/PlateB.csv.gz"
                "configs/aggregate.yaml".

Definition snakemake (threads : Z) : Dispatcher.Snakemake :=
  {| Dispatcher.input_sql_files := ["data/PlateA.sqlite"];
     Dispatcher.input_metadata := "data/metadata";
     Dispatcher.input_barcodes := "data/barcode.csv";
     Dispatcher.output_cell_counts :=
       ["results/PlateA_cellcounts.tsv"; "results/surplus.tsv"];
     Dispatcher.output_aggregate_profile := ["results/PlateA.csv.gz"];
     Dispatcher.params_aggregate_config := "configs/aggregate.yaml";
     Dispatcher.threads := threads |}.

End Sample.

(** ** [cytopipe/cli/cmd.py] *)

Module Cli.

(** What [run_cmd] reads of the [CliControlPanel] built from [sys.argv]
    (the class is in [cli/args.py], not among the embedded sources):
    its [repr], three attributes, and whether [parse_init_args()]
    raises. *)
Record CliControlPanel : Type := {
  repr : string;
  cli_help : Py.obj;
  mode : Py.obj;
  mode_help : Py.obj;
  parse_init_args : option Py.exn
}.

Inductive event : Type :=
| Print (text : string)
| ParseInitArgs.

(** How a call ends: it returns, [sys.exit(code)] ends the process, or an
    exception escapes. *)
Inductive outcome : Type :=
| Returned
| Exited (code : Z)
| Raised (e : Py.exn).

(** [x is True]. *)
Definition is_True (x : Py.obj) : bool :=
  match x with
  | Py.PyBool true => true
  | _ => false
  end.

(** The literal pattern [case "init"]: equality with the string. *)
Definition case_str (x : Py.obj) (literal : string) : bool :=
  match x with
  | Py.PyStr s => String.eqb s literal
  | _ => false
  end.

(** Lines 18-66; [cli_docs] and [init_doc] are the texts imported from
    [cli_docs.py] and [args.py]. *)
Definition run_cmd (cli_docs init_doc : string)
  (args_handler : CliControlPanel) : list event * outcome :=
  let printed := [Print (repr args_handler)] in
  if is_True (cli_help args_handler) then
    ((printed ++ [Print cli_docs])%list, Exited 0)
  else if case_str (mode args_handler) "init" then
    if is_True (mode_help args_handler) then
      ((printed ++ [Print init_doc])%list, Exited 0)
    else
      ((printed ++ [ParseInitArgs])%list,
       match parse_init_args args_handler with
       | Some e => Raised e
       | None => Returned
       end)
  else (printed, Returned).

End Cli.

(** ** Further sample inputs *)

Module Cases.
Import Pandas.

(** A world given by what each reader and the capability return; the
    configuration is at [configs/aggregate.yaml], the barcode table at
    [data/barcode.csv] and the platemap at
    [data/metadata/platemap/MapX.csv]. *)
Definition make_world (doc : option Py.obj)
  (barcodes platemap : option DataFrame) (counts : Py.exn + DataFrame)
  (profiles : option Py.exn) : Job.World :=
  {| Job.absolute := fun p => "/work/" ++ p;
     Job.open_text := fun p =>
       if String.eqb p "/work/configs/aggregate.yaml"
       then Some "yaml" else None;
     Job.safe_load := fun _ => doc;
     Job.read_csv := fun p =>
       if String.eqb p "data/barcode.csv" then barcodes
       else if String.eqb p "data/metadata/platemap/MapX.csv"
            then platemap
            else None;
     Job.to_csv_error := fun _ => None;
     Job.SingleCells := fun _ => None;
     Job.count_cells := fun _ => counts;
     Job.aggregate_profiles := fun _ _ _ => profiles |}.

(** The capability fails while it aggregates. *)
Definition world_profiles_fail : Job.World :=
  make_world (Some Sample.document) (Some Sample.barcodes)
             (Some Sample.platemap) (inr Sample.counts)
             (Some (Py.ExternalError "OperationalError")).

(** The output directory is missing: the cell-count file cannot be
    opened for writing. *)
Definition world_write_fails : Job.World :=
  {| Job.absolute := Job.absolute Sample.world;
     Job.open_text := Job.open_text Sample.world;
     Job.safe_load := Job.safe_load Sample.world;
     Job.read_csv := Job.read_csv Sample.world;
     Job.to_csv_error := fun _ =>
       Some (Py.OSError
               "Cannot save file into a non-existent directory: 'results'");
     Job.SingleCells := Job.SingleCells Sample.world;
     Job.count_cells := Job.count_cells Sample.world;
     Job.aggregate_profiles := Job.aggregate_profiles Sample.world |}.

(** The constructor arguments of the job of [PlateA] under
    [Sample.params]. *)
Definition args_PlateA : Job.SingleCellsArgs :=
  {| Job.sql_file := "sqlite:///data/PlateA.sqlite";
     Job.strata := Py.PyList [Py.PyStr "Image_Metadata_Plate";
                              Py.PyStr "Image_Metadata_Well"];
     Job.image_cols := Py.PyList [Py.PyStr "TableNumber";
                                  Py.PyStr "ImageNumber"];
     Job.aggregation_operation := Py.PyStr "median";
     Job.output_file := Py.PyStr "none";
     Job.merge_cols := Py.PyList [Py.PyStr "TableNumber";
                                  Py.PyStr "ImageNumber"];
     Job.add_image_features := Py.PyBool false;
     Job.image_feature_categories := Py.PyList [Py.PyStr "Count"];
     Job.features := Py.PyStr "infer";
     Job.load_image_data := Py.PyBool true;
     Job.subsample_frac := Py.PyFloat "1.0";
     Job.subsampling_random_state := Py.PyInt 0;
     Job.fields_of_view := Py.PyStr "all";
     Job.fields_of_view_feature := "Image_Metadata_Well";
     Job.object_feature := Py.PyStr "Metadata_ObjectNumber" |}.


(** A barcode table whose only plate is named like the extension of the
    data files. *)
Definition barcodes_sqlite_only : DataFrame :=
  {| columns := ["Assay_Plate_Barcode"; "Plate_Map_Name"];
     rows := [["sqlite"; "MapX"]] |}.

Definition world_sqlite_only : Job.World :=
  make_world (Some Sample.document) (Some barcodes_sqlite_only)
             (Some Sample.platemap) (inr Sample.counts) None.

(** A platemap without the [WellCol] column. *)
Definition platemap_without_WellCol : DataFrame :=
  {| columns := ["WellRow"; "well_position"; "treatment"];
     rows := [["A"; "A01"; "DMSO"]; ["A"; "A02"; "drugX"]] |}.

Definition world_without_WellCol : Job.World :=
  make_world (Some Sample.document) (Some Sample.barcodes)
             (Some platemap_without_WellCol) (inr Sample.counts) None.

(** A configuration whose section lacks [features] and
    [object_feature]. *)
Definition params_without_features : list (Py.obj * Py.obj) :=
  [(Py.PyStr "strata", Py.PyList [Py.PyStr "Image_Metadata_Well"]);
   (Py.PyStr "image_cols", Py.PyList [Py.PyStr "ImageNumber"]);
   (Py.PyStr "aggregation_operation", Py.PyStr "median");
   (Py.PyStr "output_file", Py.PyStr "none");
   (Py.PyStr "merge_cols", Py.PyList [Py.PyStr "ImageNumber"]);
   (Py.PyStr "add_image_features", Py.PyBool false);
   (Py.PyStr "image_feature_categories", Py.PyList []);
   (Py.PyStr "load_image_data", Py.PyBool true);
   (Py.PyStr "subsample_frac", Py.PyFloat "1.0");
   (Py.PyStr "subsampling_random_state", Py.PyInt 0);
   (Py.PyStr "fields_of_view", Py.PyStr "all")].

Definition world_without_features : Job.World :=
  make_world
    (Some (Py.PyDict
             [(Py.PyStr "single_cell_config",
               Py.PyDict [(Py.PyStr "params",
                           Py.PyDict params_without_features)])]))
    (Some Sample.barcodes) (Some Sample.platemap) (inr Sample.counts) None.

(** A barcode table without the [Plate_Map_Name] column. *)
Definition barcodes_without_names : DataFrame :=
  {| columns := ["Assay_Plate_Barcode"; "Batch"];
     rows := [["PlateA"; "b1"]] |}.

(** A platemap that lists the well [A01] twice and [A02] not at all. *)
Definition platemap_twice_A01 : DataFrame :=
  {| columns := ["WellRow"; "WellCol"; "well_position"; "treatment"];
     rows := [["A"; "01"; "A01"; "DMSO"]; ["A"; "01"; "A01"; "drugX"]] |}.

(** A project directory [/home/user/project] and what it holds. *)
Definition project : CytoPaths.Path :=
  {| CytoPaths.anchor := "/";
     CytoPaths.parts := ["home"; "user"; "project"] |}.

Definition path_eqb (p q : CytoPaths.Path) : bool :=
  (String.eqb (CytoPaths.anchor p) (CytoPaths.anchor q)
   && if list_eq_dec string_dec (CytoPaths.parts p) (CytoPaths.parts q)
      then true else false)%bool.

Definition project_fs : CytoPaths.FileSystem :=
  fun p => path_eqb p (CytoPaths.truediv project ".cytosnake").

Definition project_listing : CytoPaths.Listing :=
  {| CytoPaths.entries := fun p =>
       if path_eqb p project
       then [".git"; "data"; "README.md"; ".cytosnake"; "workflows"]
       else [];
     CytoPaths.is_dir := fun p =>
       negb (path_eqb p (CytoPaths.truediv project "README.md")) |}.

End Cases.

(** ** Notions used in the statements *)

Module Shape.
Import Pandas.

(** The keys that the constructor call reads, in the order written. *)
Definition constructor_keys : list string :=
  ["strata"; "image_cols"; "aggregation_operation"; "output_file";
   "merge_cols"; "add_image_features"; "image_feature_categories";
   "features"; "load_image_data"; "subsample_frac";
   "subsampling_random_state"; "fields_of_view"; "object_feature"].

Definition has_key (items : list (Py.obj * Py.obj)) (key : string) : bool :=
  existsb (fun kv => Py.is_key key (fst kv)) items.

(** Every row has one cell per column. *)
Definition rectangular (df : DataFrame) : Prop :=
  forall r, In r (rows df) -> List.length r = List.length (columns df).

(** The events of a run that goes through, in order. *)
Definition full_trace (args : Job.SingleCellsArgs) (out : DataFrame)
  (cell_count_out aggregate_file_out : string) : list Job.event :=
  [Job.Construct args;
   Job.Print "Counting cells within each well";
   Job.Print ("Saving cell counts in: " ++ cell_count_out);
   Job.ToCsv cell_count_out (to_csv out Job.TAB true false);
   Job.Print "aggregating cells";
   Job.AggregateProfiles aggregate_file_out "gzip"].

End Shape.

(** * Properties *)

Import Pandas Job.

(** ** The job monad *)

Lemma bind_raise {A B : Type} (m : run A) (k : A -> run B) (e : Py.exn) :
  result m = inl e -> bind m k = {| trace := trace m; result := inl e |}.
Proof. intros H. unfold bind. now rewrite H. Qed.

Lemma bind_silent {A B : Type} (m : run A) (k : A -> run B) :
  trace m = [] ->
  bind m k = match result m with
             | inl e => raise e
             | inr a => k a
             end.
Proof.
  destruct m as [t r]. simpl. intros ->. unfold bind. simpl.
  destruct r as [e | a]; [reflexivity |]. now destruct (k a).
Qed.

Lemma lift_silent {A : Type} (r : Py.exn + A) : trace (lift r) = [].
Proof. reflexivity. Qed.

Lemma bind_lift {A B : Type} (r : Py.exn + A) (k : A -> run B) :
  bind (lift r) k = match r with
                    | inl e => raise e
                    | inr a => k a
                    end.
Proof. now rewrite bind_silent. Qed.

Lemma may_raise_silent (r : option Py.exn) : trace (may_raise r) = [].
Proof. now destruct r. Qed.

Lemma open_silent (w : World) (p : string) : trace (open_ w p) = [].
Proof. unfold open_. now destruct (open_text w p). Qed.

Lemma yaml_safe_load_silent (w : World) (t : string) :
  trace (yaml_safe_load w t) = [].
Proof. unfold yaml_safe_load. now destruct (safe_load w t). Qed.

Lemma pd_read_csv_silent (w : World) (p : string) :
  trace (pd_read_csv w p) = [].
Proof. unfold pd_read_csv. now destruct (read_csv w p). Qed.

Lemma raise_silent {A : Type} (e : Py.exn) : trace (@raise A e) = [].
Proof. reflexivity. Qed.

Lemma bind_keeps_silent {A B : Type} (m : run A) (k : A -> run B) :
  trace m = [] -> (forall a, trace (k a) = []) -> trace (bind m k) = [].
Proof.
  intros Hm Hk. rewrite bind_silent by exact Hm.
  destruct (result m); [reflexivity | apply Hk].
Qed.

Create HintDb silent.
#[local] Hint Resolve lift_silent may_raise_silent open_silent
  yaml_safe_load_silent pd_read_csv_silent raise_silent : silent.

Ltac silence :=
  repeat (apply bind_keeps_silent; [ | intros ]); auto with silent.

Lemma load_config_silent (w : World) (config : string) :
  trace (load_config w config) = [].
Proof. unfold load_config. silence. Qed.

Lemma lookup_platemap_silent (df : DataFrame) (plate : list string) :
  trace (lookup_platemap df plate) = [].
Proof. unfold lookup_platemap. silence. Qed.

Lemma single_cells_args_silent (sql_file : string) (cfgs : Py.obj) :
  trace (single_cells_args sql_file cfgs) = [].
Proof. unfold single_cells_args. silence. Qed.

#[local] Hint Resolve load_config_silent lookup_platemap_silent
  single_cells_args_silent : silent.

(** The run of [aggregate] once the reads have gone through: from the
    constructor call on. *)
Lemma aggregate_after_reads (w : World)
  (sql_file metadata_dir barcode_path cell_count_out aggregate_file_out
   config : string)
  (cfgs : Py.obj) (bdf pdf : DataFrame) (platemap : string)
  (args : SingleCellsArgs) :
  result (load_config w config) = inr cfgs ->
  read_csv w barcode_path = Some bdf ->
  result (lookup_platemap bdf (plate_of sql_file)) = inr platemap ->
  read_csv w (platemap_path metadata_dir platemap) = Some pdf ->
  result (single_cells_args sql_file cfgs) = inr args ->
  aggregate w sql_file metadata_dir barcode_path cell_count_out
            aggregate_file_out config
  = match SingleCells w args with
    | Some e => {| trace := [Construct args]; result := inl e |}
    | None =>
        match count_cells w args with
        | inl e =>
            {| trace := [Construct args;
                         Print "Counting cells within each well"];
               result := inl e |}
        | inr cc =>
            match join_platemap cc pdf with
            | inl e =>
                {| trace := [Construct args;
                             Print "Counting cells within each well";
                             Print ("Saving cell counts in: "
                                    ++ cell_count_out)];
                   result := inl e |}
            | inr out =>
                match to_csv_error w cell_count_out with
                | Some e =>
                    {| trace := [Construct args;
                                 Print "Counting cells within each well";
                                 Print ("Saving cell counts in: "
                                        ++ cell_count_out)];
                       result := inl e |}
                | None =>
                    {| trace := [Construct args;
                                 Print "Counting cells within each well";
                                 Print ("Saving cell counts in: "
                                        ++ cell_count_out);
                                 ToCsv cell_count_out
                                       (to_csv out TAB true false);
                                 Print "aggregating cells";
                                 AggregateProfiles aggregate_file_out
                                                   "gzip"];
                       result :=
                         match aggregate_profiles w args
                                 aggregate_file_out "gzip" with
                         | Some e => inl e
                         | None => inr tt
                         end |}
                end
            end
        end
    end.
Proof.
  intros Hc Hb Hl Hp Ha. unfold aggregate.
  rewrite bind_silent, Hc by auto with silent.
  unfold pd_read_csv at 1. rewrite Hb. rewrite bind_silent by reflexivity.
  cbn [result ret].
  rewrite bind_silent, Hl by auto with silent.
  unfold pd_read_csv. rewrite Hp. rewrite bind_silent by reflexivity.
  cbn [result ret].
  rewrite bind_silent, Ha by auto with silent.
  unfold bind, may_raise, print, emit, lift, ret. cbn [result trace].
  destruct (SingleCells w args) as [e | ]; [reflexivity |].
  cbn [result trace].
  destruct (count_cells w args) as [e | cc]; [reflexivity |].
  cbn [result trace].
  destruct (join_platemap cc pdf) as [e | out]; [reflexivity |].
  cbn [result trace]. unfold df_to_csv.
  destruct (to_csv_error w cell_count_out) as [e | ]; [reflexivity |].
  unfold emit. cbn [result trace].
  destruct (aggregate_profiles w args aggregate_file_out "gzip");
    reflexivity.
Qed.

(** A run that stops during the reads has an empty trace. *)
Lemma aggregate_reads_cases (w : World)
  (sql_file metadata_dir barcode_path cell_count_out aggregate_file_out
   config : string) :
  (exists e,
      aggregate w sql_file metadata_dir barcode_path cell_count_out
                aggregate_file_out config = raise e)
  \/ (exists cfgs bdf platemap pdf args,
         result (load_config w config) = inr cfgs
         /\ read_csv w barcode_path = Some bdf
         /\ result (lookup_platemap bdf (plate_of sql_file)) = inr platemap
         /\ read_csv w (platemap_path metadata_dir platemap) = Some pdf
         /\ result (single_cells_args sql_file cfgs) = inr args).
Proof.
  unfold aggregate.
  rewrite bind_silent by auto with silent.
  destruct (result (load_config w config)) as [e | cfgs] eqn:Hc;
    [left; now exists e |].
  unfold pd_read_csv at 1.
  destruct (read_csv w barcode_path) as [bdf | ] eqn:Hb;
    [| left; eexists; reflexivity].
  rewrite bind_silent by reflexivity. cbn [result ret].
  rewrite bind_silent by auto with silent.
  destruct (result (lookup_platemap bdf (plate_of sql_file)))
    as [e | platemap] eqn:Hl; [left; now exists e |].
  unfold pd_read_csv.
  destruct (read_csv w (platemap_path metadata_dir platemap))
    as [pdf | ] eqn:Hp; [| left; eexists; reflexivity].
  rewrite bind_silent by reflexivity. cbn [result ret].
  rewrite bind_silent by auto with silent.
  destruct (result (single_cells_args sql_file cfgs)) as [e | args] eqn:Ha;
    [left; now exists e |].
  right. exists cfgs, bdf, platemap, pdf, args. auto.
Qed.

(** ** Strings and paths *)

Lemma rpartition_some (c : ascii) (s p q : string) :
  Str.rpartition c s = Some (p, q) ->
  s = p ++ String c q /\ Str.contains c q = false.
Proof.
  revert p q. induction s as [| a s IH]; intros p q H; simpl in H.
  - discriminate.
  - destruct (Str.rpartition c s) as [[p' q'] | ] eqn:E.
    + injection H as <- <-. destruct (IH _ _ eq_refl) as [-> Hq].
      split; [reflexivity | exact Hq].
    + destruct (Ascii.eqb_spec a c) as [-> | _]; [| discriminate].
      injection H as <- <-. split; [reflexivity |].
      clear IH. induction s as [| b s IH]; [reflexivity |].
      simpl in E |- *.
      destruct (Str.rpartition c s) as [[? ?] | ]; [discriminate |].
      destruct (Ascii.eqb b c); [discriminate | now apply IH].
Qed.

Lemma rpartition_none (c : ascii) (s : string) :
  Str.rpartition c s = None -> Str.contains c s = false.
Proof.
  induction s as [| a s IH]; simpl; [reflexivity |].
  destruct (Str.rpartition c s) as [[? ?] | ]; [discriminate |].
  destruct (Ascii.eqb a c); [discriminate | intros _; now apply IH].
Qed.

(** The value bound to [plate]: the base name itself when it has no dot,
    else the two-element list of what precedes and what follows its last
    dot. *)
Lemma plate_of_cases (sql_file : string) :
  (Str.contains "."%char (Str.basename sql_file) = false
   /\ plate_of sql_file = [Str.basename sql_file])
  \/ (exists stem ext,
         Str.basename sql_file = stem ++ String "."%char ext
         /\ Str.contains "."%char ext = false
         /\ plate_of sql_file = [stem; ext]).
Proof.
  unfold plate_of, Str.rsplit1.
  destruct (Str.rpartition "."%char (Str.basename sql_file))
    as [[p q] | ] eqn:E.
  - right. exists p, q. destruct (rpartition_some _ _ _ _ E). auto.
  - left. split; [now apply rpartition_none | reflexivity].
Qed.

(** ** The barcode lookup *)

(** C1 (evaluation of the code where it departs from the claim).  For
    ['data/PlateA.sqlite'] the value used in the lookup is the list
    [['PlateA', 'sqlite']], not the string ['PlateA']; the query then
    selects the rows whose barcode is in that list, so a row whose barcode
    is ['sqlite'] is selected too, whereas comparing with ['PlateA'] selects
    one row; the platemap resolved is that of the ['sqlite'] row. *)
Theorem lookup_selects_row_named_like_extension :
  plate_of "data/PlateA.sqlite" = ["PlateA"; "sqlite"]
  /\ select_barcodes Sample.barcodes_with_sqlite
                     (plate_of "data/PlateA.sqlite")
     = inr {| columns := ["Assay_Plate_Barcode"; "Plate_Map_Name"];
              rows := [["sqlite"; "MapZ"]; ["PlateA"; "MapX"]] |}
  /\ query_eq Sample.barcodes_with_sqlite "Assay_Plate_Barcode"
              (OStr "PlateA")
     = inr {| columns := ["Assay_Plate_Barcode"; "Plate_Map_Name"];
              rows := [["PlateA"; "MapX"]] |}
  /\ result (lookup_platemap Sample.barcodes_with_sqlite
                             (plate_of "data/PlateA.sqlite"))
     = inr "MapZ".
Proof. repeat split; vm_compute; reflexivity. Qed.

(** ** The join of the count table with the platemap *)

Lemma col_index_of_In (name : string) (cols : list string) :
  In name cols -> exists i, col_index name cols = Some i.
Proof.
  induction cols as [| c cols IH]; [intros [] |].
  intros Hin. simpl. destruct (String.eqb_spec c name) as [_ | Hne].
  - now exists 0.
  - destruct Hin as [-> | Hin]; [now destruct Hne |].
    destruct (IH Hin) as [i ->]. now exists (S i).
Qed.

Lemma merge_inv (left right merged : DataFrame) (left_on right_on : string) :
  merge left right left_on right_on = inr merged ->
  exists i j,
    col_index left_on (columns left) = Some i
    /\ col_index right_on (columns right) = Some j
    /\ rows merged
       = flat_map (fun l => map (fun r => (l ++ r)%list)
                                (matches i j (rows right) l))
                  (rows left).
Proof.
  unfold merge.
  destruct (col_index right_on (columns right)) as [j | ]; [| discriminate].
  destruct (col_index left_on (columns left)) as [i | ]; [| discriminate].
  intros H. injection H as <-. now exists i, j.
Qed.

Lemma drop_inv (df out : DataFrame) (labels : list string) :
  drop df labels = inr out ->
  columns out = filter (fun c => negb (mem c labels)) (columns df)
  /\ rows out = map (drop_cells labels (columns df)) (rows df).
Proof.
  unfold drop.
  destruct (filter (fun l => negb (mem l (columns df))) labels);
    [| discriminate].
  intros H. injection H as <-. auto.
Qed.

Lemma join_platemap_inv (cc pm out : DataFrame) :
  join_platemap cc pm = inr out ->
  exists merged,
    merge cc pm "Image_Metadata_Well" "well_position" = inr merged
    /\ drop merged ["WellRow"; "WellCol"; "well_position"] = inr out.
Proof.
  unfold join_platemap.
  destruct (merge cc pm "Image_Metadata_Well" "well_position")
    as [e | merged]; [discriminate |].
  intros H. now exists merged.
Qed.

Lemma matches_In (i j : nat) (right_rows : list (list string))
  (l r : list string) :
  In r (matches i j right_rows l) <->
  In r right_rows /\ cell i l = cell j r.
Proof.
  unfold matches. rewrite filter_In. now rewrite String.eqb_eq.
Qed.

Lemma join_rows_length (cc pm out : DataFrame) (i j : nat) :
  col_index "Image_Metadata_Well" (columns cc) = Some i ->
  col_index "well_position" (columns pm) = Some j ->
  join_platemap cc pm = inr out ->
  List.length (rows out)
  = list_sum (map (fun l => List.length (matches i j (rows pm) l))
                  (rows cc)).
Proof.
  intros Hi Hj H.
  destruct (join_platemap_inv _ _ _ H) as (merged & Hm & Hd).
  destruct (merge_inv _ _ _ _ _ Hm) as (i' & j' & Hi' & Hj' & Hrows).
  rewrite Hi in Hi'. rewrite Hj in Hj'.
  injection Hi' as <-. injection Hj' as <-.
  destruct (drop_inv _ _ _ Hd) as [_ ->].
  rewrite length_map, Hrows, length_flat_map.
  f_equal. apply map_ext. intros l. apply length_map.
Qed.

(** C2 (the claim fails).  The well [B07] of the count table has no row in
    the platemap: the job's join keeps the row of [A01] only, and no row of
    the merged table extends the row of [B07]. *)
Lemma join_loses_well_without_platemap_row :
  join_platemap Sample.counts_with_B07 Sample.platemap
  = inr {| columns := ["Image_Metadata_Well"; "cell_count"; "treatment"];
           rows := [["A01"; "12"; "DMSO"]] |}
  /\ In ["B07"; "5"] (rows Sample.counts_with_B07)
  /\ exists merged,
       merge Sample.counts_with_B07 Sample.platemap
             "Image_Metadata_Well" "well_position" = inr merged
       /\ ~ (forall l, In l (rows Sample.counts_with_B07) ->
                       exists r, In (l ++ r)%list (rows merged)).
Proof.
  split; [vm_compute; reflexivity |].
  split; [simpl; auto |].
  eexists. split; [vm_compute; reflexivity |].
  intros H. destruct (H ["B07"; "5"]) as [r Hr]; [simpl; auto |].
  simpl in Hr. destruct Hr as [Hr | []]. discriminate Hr.
Qed.

(** C2 (amended).  The job combines the count table with the platemap by
    an inner join on [Image_Metadata_Well] = [well_position]: the merged
    rows are exactly the concatenations of a count row and a platemap row
    with equal keys, a count row contributes as many rows as the platemap
    has rows for its well, and so none when its well has no platemap row. *)
Theorem join_platemap_is_inner_join (cc pm out : DataFrame) :
  join_platemap cc pm = inr out ->
  exists i j merged,
    col_index "Image_Metadata_Well" (columns cc) = Some i
    /\ col_index "well_position" (columns pm) = Some j
    /\ merge cc pm "Image_Metadata_Well" "well_position" = inr merged
    /\ drop merged ["WellRow"; "WellCol"; "well_position"] = inr out
    /\ (forall x, In x (rows merged) <->
                  exists l r, In l (rows cc) /\ In r (rows pm)
                              /\ cell i l = cell j r /\ x = (l ++ r)%list)
    /\ List.length (rows out)
       = list_sum (map (fun l => List.length (matches i j (rows pm) l))
                       (rows cc))
    /\ (forall l, (forall r, In r (rows pm) -> cell i l <> cell j r) ->
                  matches i j (rows pm) l = []).
Proof.
  intros H.
  destruct (join_platemap_inv _ _ _ H) as (merged & Hm & Hd).
  destruct (merge_inv _ _ _ _ _ Hm) as (i & j & Hi & Hj & Hrows).
  exists i, j, merged. repeat split; auto.
  - rewrite Hrows, in_flat_map. intros (l & Hl & Hx).
    rewrite in_map_iff in Hx. destruct Hx as (r & <- & Hr).
    rewrite matches_In in Hr. exists l, r. tauto.
  - intros (l & r & Hl & Hr & Hk & ->). rewrite Hrows, in_flat_map.
    exists l. split; [exact Hl |]. apply in_map. now apply matches_In.
  - now apply join_rows_length.
  - intros l Hno. destruct (matches i j (rows pm) l) as [| r rs] eqn:E;
      [reflexivity |].
    assert (Hin : In r (matches i j (rows pm) l)) by (rewrite E; now left).
    apply matches_In in Hin. destruct Hin as [Hr Hk]. now destruct (Hno r).
Qed.

Lemma join_platemap_is_inner_join_witness :
  exists i j merged,
    col_index "Image_Metadata_Well" (columns Sample.counts_with_B07) = Some i
    /\ col_index "well_position" (columns Sample.platemap) = Some j
    /\ merge Sample.counts_with_B07 Sample.platemap
             "Image_Metadata_Well" "well_position" = inr merged
    /\ drop merged ["WellRow"; "WellCol"; "well_position"]
       = inr {| columns := ["Image_Metadata_Well"; "cell_count"; "treatment"];
                rows := [["A01"; "12"; "DMSO"]] |}
    /\ (forall x, In x (rows merged) <->
                  exists l r, In l (rows Sample.counts_with_B07)
                              /\ In r (rows Sample.platemap)
                              /\ cell i l = cell j r /\ x = (l ++ r)%list)
    /\ List.length [["A01"; "12"; "DMSO"]]
       = list_sum (map (fun l => List.length
                                   (matches i j (rows Sample.platemap) l))
                       (rows Sample.counts_with_B07))
    /\ (forall l, (forall r, In r (rows Sample.platemap) ->
                             cell i l <> cell j r) ->
                  matches i j (rows Sample.platemap) l = []).
Proof.
  apply (join_platemap_is_inner_join Sample.counts_with_B07 Sample.platemap).
  vm_compute. reflexivity.
Defined.

(** ** What the job writes *)

Lemma csv_written_raise {A : Type} (e : Py.exn) :
  csv_written (@raise A e) = [].
Proof. reflexivity. Qed.

(** A cell-count file is written only after every read, the constructor,
    the count and the join have gone through, and it holds the joined
    table. *)
Lemma aggregate_csv_written (w : World)
  (sql_file metadata_dir barcode_path cell_count_out aggregate_file_out
   config : string) (path : string) (file : CsvFile) :
  In (path, file)
     (csv_written (aggregate w sql_file metadata_dir barcode_path
                             cell_count_out aggregate_file_out config)) ->
  exists cfgs bdf platemap pdf args cc out,
    result (load_config w config) = inr cfgs
    /\ read_csv w barcode_path = Some bdf
    /\ result (lookup_platemap bdf (plate_of sql_file)) = inr platemap
    /\ read_csv w (platemap_path metadata_dir platemap) = Some pdf
    /\ result (single_cells_args sql_file cfgs) = inr args
    /\ SingleCells w args = None
    /\ count_cells w args = inr cc
    /\ join_platemap cc pdf = inr out
    /\ path = cell_count_out
    /\ file = to_csv out TAB true false
    /\ to_csv_error w cell_count_out = None.
Proof.
  intros H.
  destruct (aggregate_reads_cases w sql_file metadata_dir barcode_path
              cell_count_out aggregate_file_out config)
    as [[e He] | (cfgs & bdf & platemap & pdf & args & Hc & Hb & Hl & Hp & Ha)].
  - rewrite He in H. destruct H.
  - rewrite (aggregate_after_reads _ _ _ _ _ _ _ _ _ _ _ _ Hc Hb Hl Hp Ha)
      in H.
    exists cfgs, bdf, platemap, pdf, args.
    destruct (SingleCells w args) as [e | ] eqn:Hs; [destruct H |].
    destruct (count_cells w args) as [e | cc] eqn:Hn; [destruct H |].
    destruct (join_platemap cc pdf) as [e | out] eqn:Hj; [destruct H |].
    destruct (to_csv_error w cell_count_out) as [e | ] eqn:Hw;
      [destruct H |].
    exists cc, out. cbn in H. destruct H as [H | []].
    injection H as <- <-. repeat split; auto.
Qed.

Lemma to_csv_records (df : DataFrame) (sep : string) :
  records (to_csv df sep true false) = columns df :: rows df.
Proof.
  unfold to_csv. cbn [records app]. f_equal.
  generalize 0. induction (rows df) as [| r rs IH]; intros n;
    [reflexivity |].
  cbn [List.length seq combine map fst snd app]. f_equal. apply IH.
Qed.

Lemma drop_removes (df out : DataFrame) (labels : list string) (c : string) :
  drop df labels = inr out -> In c labels -> ~ In c (columns out).
Proof.
  intros H Hc Hin. destruct (drop_inv _ _ _ H) as [Hcols _].
  rewrite Hcols in Hin. apply filter_In in Hin. destruct Hin as [_ Hneg].
  assert (Hm : mem c labels = true).
  { unfold mem. apply existsb_exists. exists c. split; [exact Hc |].
    apply String.eqb_refl. }
  rewrite Hm in Hneg. discriminate.
Qed.

(** With a platemap that has the three columns, and a count table that has
    the well column and none of the three, the join goes through. *)
Lemma join_platemap_succeeds (cc pm : DataFrame) :
  In "Image_Metadata_Well" (columns cc) ->
  In "WellRow" (columns pm) -> In "WellCol" (columns pm) ->
  In "well_position" (columns pm) ->
  ~ In "WellRow" (columns cc) -> ~ In "WellCol" (columns cc) ->
  ~ In "well_position" (columns cc) ->
  exists out, join_platemap cc pm = inr out.
Proof.
  intros Hw H1 H2 H3 N1 N2 N3.
  assert (Hmem : forall name cols, In name cols -> mem name cols = true).
  { intros name cols Hin. unfold mem. apply existsb_exists.
    exists name. split; [exact Hin | apply String.eqb_refl]. }
  assert (Hnot : forall name cols, ~ In name cols -> mem name cols = false).
  { intros name cols Hn. unfold mem.
    destruct (existsb (String.eqb name) cols) eqn:E; [| reflexivity].
    apply existsb_exists in E. destruct E as (x & Hx & Hxe).
    apply String.eqb_eq in Hxe. subst x. now destruct Hn. }
  assert (Hkeep : forall name, In name (columns pm) ->
                               ~ In name (columns cc) ->
                               mem name
                                 (suffixed (columns cc) (columns pm) "_x"
                                  ++ suffixed (columns pm) (columns cc) "_y")
                               = true).
  { intros name Hin Hn. apply Hmem. apply in_or_app. right.
    unfold suffixed. apply in_map_iff. exists name.
    rewrite (Hnot _ _ Hn). auto. }
  unfold join_platemap, merge.
  destruct (col_index_of_In _ _ H3) as [j ->].
  destruct (col_index_of_In _ _ Hw) as [i ->].
  unfold drop. cbn [columns filter].
  rewrite (Hkeep _ H1 N1), (Hkeep _ H2 N2), (Hkeep _ H3 N3). cbn [negb].
  eexists. reflexivity.
Qed.

(** C3.  Whatever the inputs, a cell-count file that the job writes goes
    to [cell_count_out], is tab-separated, starts with the header row
    followed by the rows of the joined table with no index cell in front,
    and its header has none of [WellRow], [WellCol], [well_position]. *)
Theorem cell_count_file_format (w : World)
  (sql_file metadata_dir barcode_path cell_count_out aggregate_file_out
   config : string) (path : string) (file : CsvFile) :
  In (path, file)
     (csv_written (aggregate w sql_file metadata_dir barcode_path
                             cell_count_out aggregate_file_out config)) ->
  path = cell_count_out
  /\ sep file = String (ascii_of_nat 9) EmptyString
  /\ exists header body,
       records file = header :: body
       /\ ~ In "WellRow" header
       /\ ~ In "WellCol" header
       /\ ~ In "well_position" header
       /\ exists cc pm out,
            join_platemap cc pm = inr out
            /\ header = columns out /\ body = rows out.
Proof.
  intros H.
  destruct (aggregate_csv_written _ _ _ _ _ _ _ _ _ H)
    as (cfgs & bdf & platemap & pdf & args & cc & out & _ & _ & _ & _ & _
        & _ & _ & Hj & -> & -> & _).
  split; [reflexivity |]. split; [reflexivity |].
  exists (columns out), (rows out).
  destruct (join_platemap_inv _ _ _ Hj) as (merged & _ & Hd).
  split; [apply to_csv_records |].
  repeat split;
    try (apply (drop_removes _ _ _ _ Hd); simpl; tauto).
  exists cc, pdf, out. auto.
Qed.

Lemma cell_count_file_format_witness :
  In ("results/PlateA_cellcounts.tsv",
      {| sep := String (ascii_of_nat 9) EmptyString;
         records := [["Image_Metadata_Well"; "cell_count"; "treatment"];
                     ["A01"; "12"; "DMSO"];
                     ["A02"; "7"; "drugX"]] |})
     (csv_written (Sample.run_PlateA Sample.world))
  /\ exists header body,
       [["Image_Metadata_Well"; "cell_count"; "treatment"];
        ["A01"; "12"; "DMSO"];
        ["A02"; "7"; "drugX"]] = header :: body
       /\ ~ In "WellRow" header
       /\ ~ In "WellCol" header
       /\ ~ In "well_position" header
       /\ exists cc pm out,
            join_platemap cc pm = inr out
            /\ header = columns out /\ body = rows out.
Proof.
  assert (H : In ("results/PlateA_cellcounts.tsv",
                  {| sep := String (ascii_of_nat 9) EmptyString;
                     records :=
                       [["Image_Metadata_Well"; "cell_count"; "treatment"];
                        ["A01"; "12"; "DMSO"];
                        ["A02"; "7"; "drugX"]] |})
                 (csv_written (Sample.run_PlateA Sample.world))).
  { vm_compute. left. reflexivity. }
  split; [exact H |].
  apply (cell_count_file_format _ _ _ _ _ _ _ _ _ H).
Defined.

(** ** The dispatcher *)

Import Dispatcher.

Lemma zip6_shape (a d e : list string) (x y z : string) :
  let n := Nat.min (List.length a)
                   (Nat.min (List.length d) (List.length e)) in
  let l := zip6 a (itertools_repeat x) (itertools_repeat y) (of_list d)
                (of_list e) (itertools_repeat z) in
  List.length l = n
  /\ map Dispatcher.sql_file l = firstn n a
  /\ map cell_count_out l = firstn n d
  /\ map aggregate_file_out l = firstn n e
  /\ (forall j, In j l ->
                metadata_dir j = x /\ barcode_path j = y /\ config j = z).
Proof.
  cbv zeta. revert d e.
  induction a as [| a1 a IH]; intros d e.
  - simpl. repeat split; intros; contradiction.
  - destruct d as [| d1 d]; [simpl; repeat split; intros; contradiction |].
    destruct e as [| e1 e].
    + simpl. repeat split; intros; contradiction.
    + destruct (IH d e) as (H1 & H2 & H3 & H4 & H5).
      cbn [zip6 next List.length Nat.min map firstn
           Dispatcher.sql_file cell_count_out aggregate_file_out].
      rewrite H1, H2, H3, H4. repeat split; try reflexivity;
        destruct H as [<- | H]; try reflexivity; now apply H5.
Qed.

(** C4.  With [W] the requested count and [N] the number of job tuples:
    the count after the check is [min W N]; the block prints the warning,
    which spells out [W], [N] and the adjusted count, exactly when [W > N]
    and prints nothing otherwise; and the pool, when one is created, has
    [min W N] processes. *)
Theorem worker_count_is_min (w : World) (sm : Snakemake) :
  let N := Z.of_nat (List.length (inputs sm)) in
  let W := threads sm in
  snd (clamp W N) = Z.min W N
  /\ stdout (main w sm)
     = (if (W >? N)%Z
        then ["WARNING: number of specified cores (" ++ Py.str_of_int W
              ++ ") exceeds number of inputs (" ++ Py.str_of_int N
              ++ "), defaulting to " ++ Py.str_of_int (Z.min W N)]
        else [])
  /\ ((W > N)%Z <-> stdout (main w sm) <> [])
  /\ pool (main w sm)
     = (if (Z.min W N <? 1)%Z then None
        else Some {| processes := Z.min W N;
                     outcomes := starmap w (inputs sm) |}).
Proof.
  cbv zeta. unfold main, clamp, warning.
  destruct (Z.gtb_spec (threads sm) (Z.of_nat (List.length (inputs sm))))
    as [Hgt | Hle].
  - rewrite Z.min_r by lia. cbn [snd].
    destruct (Z.of_nat (List.length (inputs sm)) <? 1)%Z;
      cbn [stdout pool]; repeat split; try reflexivity; try lia;
      intros; discriminate.
  - rewrite Z.min_l by lia. cbn [snd].
    destruct (threads sm <? 1)%Z;
      cbn [stdout pool]; repeat split; try reflexivity; try lia;
      intros H; now destruct H.
Qed.












(** ** Loading the configuration *)

Lemma getitem_error (o : Py.obj) (key : string) (e : Py.exn) :
  Py.getitem o key = inl e -> e = Py.KeyError key \/ e = Py.TypeError.
Proof.
  destruct o as [ | b | z | f | s | l | items]; simpl;
    try (intros [= <-]; now right).
  destruct (find _ items); [discriminate |]. intros [= <-]. now left.
Qed.

Lemma load_config_result (w : World) (config : string) :
  result (load_config w config)
  = match open_text w (absolute w config) with
    | None => inl (Py.FileNotFoundError (absolute w config))
    | Some text =>
        match safe_load w text with
        | None => inl Py.YAMLError
        | Some doc =>
            match Py.getitem doc "single_cell_config" with
            | inl e => inl e
            | inr section => Py.getitem section "params"
            end
        end
    end.
Proof.
  unfold load_config, open_, yaml_safe_load.
  destruct (open_text w (absolute w config)) as [text | ]; [| reflexivity].
  rewrite bind_silent by reflexivity. cbn [result ret].
  destruct (safe_load w text) as [doc | ]; [| reflexivity].
  rewrite bind_silent by reflexivity. cbn [result ret].
  rewrite bind_lift.
  now destruct (Py.getitem doc "single_cell_config").
Qed.

Lemma aggregate_config_error (w : World)
  (sql_file metadata_dir barcode_path cell_count_out aggregate_file_out
   config : string) (e : Py.exn) :
  result (load_config w config) = inl e ->
  aggregate w sql_file metadata_dir barcode_path cell_count_out
            aggregate_file_out config = raise e.
Proof.
  intros H. unfold aggregate.
  rewrite bind_silent by auto with silent. now rewrite H.
Qed.

Lemma single_cells_args_fields (sql_file : string) (cfgs : Py.obj)
  (args : SingleCellsArgs) :
  result (single_cells_args sql_file cfgs) = inr args ->
  Job.sql_file args = "sqlite:///" ++ sql_file
  /\ fields_of_view_feature args = "Image_Metadata_Well"
  /\ Py.getitem cfgs "strata" = inr (strata args)
  /\ Py.getitem cfgs "image_cols" = inr (image_cols args)
  /\ Py.getitem cfgs "aggregation_operation"
     = inr (aggregation_operation args)
  /\ Py.getitem cfgs "output_file" = inr (output_file args)
  /\ Py.getitem cfgs "merge_cols" = inr (merge_cols args)
  /\ Py.getitem cfgs "add_image_features" = inr (add_image_features args)
  /\ Py.getitem cfgs "image_feature_categories"
     = inr (image_feature_categories args)
  /\ Py.getitem cfgs "features" = inr (features args)
  /\ Py.getitem cfgs "load_image_data" = inr (load_image_data args)
  /\ Py.getitem cfgs "subsample_frac" = inr (subsample_frac args)
  /\ Py.getitem cfgs "subsampling_random_state"
     = inr (subsampling_random_state args)
  /\ Py.getitem cfgs "fields_of_view" = inr (fields_of_view args)
  /\ Py.getitem cfgs "object_feature" = inr (object_feature args).
Proof.
  unfold single_cells_args.
  repeat (rewrite bind_lift;
          match goal with
          | |- context [match Py.getitem cfgs ?k with _ => _ end] =>
              destruct (Py.getitem cfgs k); [discriminate |]
          end).
  unfold ret. cbn [result]. intros [= <-]. cbn. tauto.
Qed.

(** The arguments of the constructor call of a run are those built from
    the loaded configuration. *)
Lemma aggregate_constructs (w : World)
  (sql_file metadata_dir barcode_path cell_count_out aggregate_file_out
   config : string) (args : SingleCellsArgs) :
  In (Construct args)
     (trace (aggregate w sql_file metadata_dir barcode_path cell_count_out
                       aggregate_file_out config)) ->
  exists cfgs,
    result (load_config w config) = inr cfgs
    /\ result (single_cells_args sql_file cfgs) = inr args.
Proof.
  intros H.
  destruct (aggregate_reads_cases w sql_file metadata_dir barcode_path
              cell_count_out aggregate_file_out config)
    as [[e He] | (cfgs & bdf & platemap & pdf & a & Hc & Hb & Hl & Hp & Ha)].
  - rewrite He in H. destruct H.
  - rewrite (aggregate_after_reads _ _ _ _ _ _ _ _ _ _ _ _ Hc Hb Hl Hp Ha)
      in H.
    exists cfgs. split; [exact Hc |].
    assert (Heq : a = args).
    { destruct (SingleCells w a); [| destruct (count_cells w a);
        [| destruct (join_platemap _ pdf);
           [| destruct (to_csv_error w cell_count_out)]]];
        cbn in H;
        repeat (destruct H as [H | H]; [try discriminate H |]);
        try contradiction; now injection H. }
    now subst a.
Qed.

(** C5 (the claim fails).  With the configuration file missing, not YAML,
    or lacking the section, the job raises [FileNotFoundError], a
    [YAMLError] and [KeyError]: three classes, none of which is a
    [ConfigLoadError]. *)
Lemma config_errors_are_not_ConfigLoadError :
  (let r := aggregate Sample.world "data/PlateA.sqlite" "data/metadata"
                      "data/barcode.csv" "results/PlateA_cellcounts.tsv"
                      "results/PlateA.csv.gz" "configs/missing.yaml" in
   result r = inl (Py.FileNotFoundError "/work/configs/missing.yaml")
   /\ Py.isinstance (Py.FileNotFoundError "/work/configs/missing.yaml")
                    "ConfigLoadError" = false)
  /\ (result (Sample.run_PlateA Sample.world_bad_yaml) = inl Py.YAMLError
      /\ Py.isinstance Py.YAMLError "ConfigLoadError" = false)
  /\ (result (Sample.run_PlateA Sample.world_no_section)
      = inl (Py.KeyError "single_cell_config")
      /\ Py.isinstance (Py.KeyError "single_cell_config") "ConfigLoadError"
         = false).
Proof. repeat split; vm_compute; reflexivity. Qed.

(** C5 (amended).  Loading the configuration makes the job fail, with
    nothing printed or written, with [FileNotFoundError] when the file is
    missing, with [YAMLError] when its text is not valid YAML, and with
    [KeyError] (or [TypeError], when the enclosing value is not a mapping)
    when [single_cell_config] or its [params] is absent; otherwise the
    load returns the [params] section, and every constructor call of the
    job takes each of its thirteen configured arguments from that
    section. *)
Theorem config_load_outcomes (w : World)
  (sql_file metadata_dir barcode_path cell_count_out aggregate_file_out
   config : string) :
  let job := aggregate w sql_file metadata_dir barcode_path cell_count_out
                       aggregate_file_out config in
  let path := absolute w config in
  (open_text w path = None -> job = raise (Py.FileNotFoundError path))
  /\ (forall text,
         open_text w path = Some text -> safe_load w text = None ->
         job = raise Py.YAMLError)
  /\ (forall text doc e,
         open_text w path = Some text -> safe_load w text = Some doc ->
         Py.getitem doc "single_cell_config" = inl e ->
         job = raise e
         /\ (e = Py.KeyError "single_cell_config" \/ e = Py.TypeError))
  /\ (forall text doc section e,
         open_text w path = Some text -> safe_load w text = Some doc ->
         Py.getitem doc "single_cell_config" = inr section ->
         Py.getitem section "params" = inl e ->
         job = raise e /\ (e = Py.KeyError "params" \/ e = Py.TypeError))
  /\ (forall text doc section params,
         open_text w path = Some text -> safe_load w text = Some doc ->
         Py.getitem doc "single_cell_config" = inr section ->
         Py.getitem section "params" = inr params ->
         result (load_config w config) = inr params
         /\ forall args,
              In (Construct args) (trace job) ->
              Job.sql_file args = "sqlite:///" ++ sql_file
              /\ fields_of_view_feature args = "Image_Metadata_Well"
              /\ Py.getitem params "strata" = inr (strata args)
              /\ Py.getitem params "image_cols" = inr (image_cols args)
              /\ Py.getitem params "aggregation_operation"
                 = inr (aggregation_operation args)
              /\ Py.getitem params "output_file" = inr (output_file args)
              /\ Py.getitem params "merge_cols" = inr (merge_cols args)
              /\ Py.getitem params "add_image_features"
                 = inr (add_image_features args)
              /\ Py.getitem params "image_feature_categories"
                 = inr (image_feature_categories args)
              /\ Py.getitem params "features" = inr (features args)
              /\ Py.getitem params "load_image_data"
                 = inr (load_image_data args)
              /\ Py.getitem params "subsample_frac"
                 = inr (subsample_frac args)
              /\ Py.getitem params "subsampling_random_state"
                 = inr (subsampling_random_state args)
              /\ Py.getitem params "fields_of_view"
                 = inr (fields_of_view args)
              /\ Py.getitem params "object_feature"
                 = inr (object_feature args)).
Proof.
  cbv zeta.
  pose proof (load_config_result w config) as R.
  split; [| split; [| split; [| split]]].
  - intros Ho. rewrite Ho in R. now apply aggregate_config_error.
  - intros text Ho Hy. rewrite Ho, Hy in R.
    now apply aggregate_config_error.
  - intros text doc e Ho Hy Hs. rewrite Ho, Hy, Hs in R.
    split; [now apply aggregate_config_error |].
    exact (getitem_error _ _ _ Hs).
  - intros text doc section e Ho Hy Hs Hp. rewrite Ho, Hy, Hs, Hp in R.
    split; [now apply aggregate_config_error |].
    exact (getitem_error _ _ _ Hp).
  - intros text doc section params Ho Hy Hs Hp.
    rewrite Ho, Hy, Hs, Hp in R. split; [exact R |].
    intros args Hin.
    destruct (aggregate_constructs _ _ _ _ _ _ _ _ Hin) as (cfgs & Hc & Ha).
    rewrite R in Hc. injection Hc as <-.
    now apply single_cells_args_fields.
Qed.

Lemma config_load_outcomes_witness :
  aggregate Sample.world "data/PlateA.sqlite" "data/metadata"
            "data/barcode.csv" "results/PlateA_cellcounts.tsv"
            "results/PlateA.csv.gz" "configs/missing.yaml"
  = raise (Py.FileNotFoundError "/work/configs/missing.yaml")
  /\ Sample.run_PlateA Sample.world_bad_yaml = raise Py.YAMLError
  /\ Sample.run_PlateA Sample.world_no_section
     = raise (Py.KeyError "single_cell_config")
  /\ result (load_config Sample.world "configs/aggregate.yaml")
     = inr Sample.params.
Proof.
  split; [| split; [| split]].
  - apply (config_load_outcomes Sample.world). reflexivity.
  - apply (config_load_outcomes Sample.world_bad_yaml)
      with (text := "single_cell_config: ["); reflexivity.
  - apply (config_load_outcomes Sample.world_no_section)
      with (text := "single_cell_config: {params: {...}}")
           (doc := Py.PyDict [(Py.PyStr "other", Py.PyNone)]);
      reflexivity.
  - apply (config_load_outcomes Sample.world "data/PlateA.sqlite"
             "data/metadata" "data/barcode.csv"
             "results/PlateA_cellcounts.tsv" "results/PlateA.csv.gz"
             "configs/aggregate.yaml")
      with (text := "single_cell_config: {params: {...}}")
           (doc := Sample.document)
           (section := Py.PyDict [(Py.PyStr "params", Sample.params)]);
      reflexivity.
Defined.

(** ** Resolving the platemap *)

Lemma select_barcodes_columns (bdf sel : DataFrame) (plate : list string) :
  select_barcodes bdf plate = inr sel -> columns sel = columns bdf.
Proof.
  unfold select_barcodes, query_eq.
  destruct (col_index "Assay_Plate_Barcode" (columns bdf));
    [| discriminate].
  intros [= <-]. reflexivity.
Qed.

Lemma lookup_platemap_none (bdf sel : DataFrame) (plate : list string) :
  select_barcodes bdf plate = inr sel -> rows sel = [] ->
  In "Plate_Map_Name" (columns bdf) ->
  result (lookup_platemap bdf plate) = inl Py.IndexError.
Proof.
  intros Hs Hr Hin. unfold lookup_platemap.
  rewrite bind_lift, Hs, bind_lift. unfold column_values.
  rewrite (select_barcodes_columns _ _ _ Hs).
  destruct (col_index_of_In _ _ Hin) as [i ->]. now rewrite Hr.
Qed.

Lemma lookup_platemap_first (bdf sel : DataFrame) (plate : list string)
  (first : list string) (rest : list (list string)) (i : nat) :
  select_barcodes bdf plate = inr sel -> rows sel = first :: rest ->
  col_index "Plate_Map_Name" (columns bdf) = Some i ->
  result (lookup_platemap bdf plate) = inr (cell i first).
Proof.
  intros Hs Hr Hi. unfold lookup_platemap.
  rewrite bind_lift, Hs, bind_lift. unfold column_values.
  rewrite (select_barcodes_columns _ _ _ Hs), Hi. now rewrite Hr.
Qed.

Lemma aggregate_lookup_error (w : World)
  (sql_file metadata_dir barcode_path cell_count_out aggregate_file_out
   config : string) (cfgs : Py.obj) (bdf : DataFrame) (e : Py.exn) :
  result (load_config w config) = inr cfgs ->
  read_csv w barcode_path = Some bdf ->
  result (lookup_platemap bdf (plate_of sql_file)) = inl e ->
  aggregate w sql_file metadata_dir barcode_path cell_count_out
            aggregate_file_out config = raise e.
Proof.
  intros Hc Hb Hl. unfold aggregate.
  rewrite bind_silent, Hc by auto with silent.
  unfold pd_read_csv at 1. rewrite Hb. rewrite bind_silent by reflexivity.
  cbn [result ret].
  rewrite bind_silent, Hl by auto with silent. reflexivity.
Qed.

Lemma aggregate_platemap_missing (w : World)
  (sql_file metadata_dir barcode_path cell_count_out aggregate_file_out
   config : string) (cfgs : Py.obj) (bdf : DataFrame) (platemap : string) :
  result (load_config w config) = inr cfgs ->
  read_csv w barcode_path = Some bdf ->
  result (lookup_platemap bdf (plate_of sql_file)) = inr platemap ->
  read_csv w (platemap_path metadata_dir platemap) = None ->
  aggregate w sql_file metadata_dir barcode_path cell_count_out
            aggregate_file_out config
  = raise (Py.FileNotFoundError (platemap_path metadata_dir platemap)).
Proof.
  intros Hc Hb Hl Hp. unfold aggregate.
  rewrite bind_silent, Hc by auto with silent.
  unfold pd_read_csv at 1. rewrite Hb. rewrite bind_silent by reflexivity.
  cbn [result ret].
  rewrite bind_silent, Hl by auto with silent.
  unfold pd_read_csv. rewrite Hp. reflexivity.
Qed.

Lemma append_assoc (a b c : string) : (a ++ b) ++ c = a ++ b ++ c.
Proof. induction a as [| x a IH]; simpl; [reflexivity | now rewrite IH]. Qed.

Lemma endswith_append (a b : string) (c : ascii) :
  b <> "" -> Str.endswith (a ++ b) c = Str.endswith b c.
Proof.
  intros Hb. induction a as [| x a IH]; [reflexivity |].
  change (String x a ++ b) with (String x (a ++ b)).
  cbn [Str.endswith]. destruct (a ++ b) eqn:E; [| exact IH].
  destruct a; [simpl in E; now destruct Hb | discriminate].
Qed.

Lemma append_nonempty (a b : string) : b <> "" -> a ++ b <> "".
Proof. destruct a; simpl; [auto | discriminate]. Qed.

(** For a directory that is neither empty nor ends with a slash, and a
    platemap name that does not start with one, the path is the plain
    concatenation. *)
Lemma platemap_path_plain (metadata_dir platemap : string) :
  metadata_dir <> "" ->
  Str.endswith metadata_dir "/"%char = false ->
  Str.startswith platemap "/"%char = false ->
  platemap_path metadata_dir platemap
  = metadata_dir ++ "/platemap/" ++ platemap ++ ".csv".
Proof.
  intros Hne Hend Hstart.
  unfold platemap_path, Str.os_path_join. cbn [fold_left].
  assert (H1 : Str.join_step metadata_dir "platemap"
               = metadata_dir ++ "/platemap").
  { unfold Str.join_step. cbn [Str.startswith Ascii.eqb Bool.eqb].
    apply String.eqb_neq in Hne. now rewrite Hne, Hend. }
  rewrite H1. unfold Str.join_step.
  assert (H2 : Str.startswith (platemap ++ ".csv") "/"%char = false).
  { destruct platemap; [reflexivity | exact Hstart]. }
  rewrite H2.
  assert (H3 : String.eqb (metadata_dir ++ "/platemap") "" = false).
  { apply String.eqb_neq. apply append_nonempty. discriminate. }
  rewrite H3, endswith_append by discriminate.
  cbn [orb Str.endswith Ascii.eqb Bool.eqb].
  rewrite append_assoc. reflexivity.
Qed.

(** C6 (evaluation of the code where it departs from the claim).  For
    [data/PlateB.sqlite] and a barcode table whose only row has the
    barcode [sqlite], no row has the plate identifier [PlateB]; yet the
    lookup selects the row, because the value compared is the list
    [['PlateB', 'sqlite']] (the slip of line 50, as in C1): the job
    raises no [IndexError], it returns, having written both outputs with
    the platemap of the [sqlite] row. *)
Theorem unlisted_plate_is_served_by_extension_row :
  query_eq Cases.barcodes_sqlite_only "Assay_Plate_Barcode" (OStr "PlateB")
  = inr {| columns := ["Assay_Plate_Barcode"; "Plate_Map_Name"];
           rows := [] |}
  /\ select_barcodes Cases.barcodes_sqlite_only
                     (plate_of "data/PlateB.sqlite")
     = inr {| columns := ["Assay_Plate_Barcode"; "Plate_Map_Name"];
              rows := [["sqlite"; "MapX"]] |}
  /\ result (Sample.run_PlateB Cases.world_sqlite_only) = inr tt
  /\ writes (Sample.run_PlateB Cases.world_sqlite_only)
     = [ToCsv "results/PlateB_cellcounts.tsv"
              (to_csv {| columns := ["Image_Metadata_Well"; "cell_count";
                                     "treatment"];
                         rows := [["A01"; "12"; "DMSO"];
                                  ["A02"; "7"; "drugX"]] |}
                      TAB true false);
        AggregateProfiles "results/PlateB.csv.gz" "gzip"].
Proof. repeat split; vm_compute; reflexivity. Qed.

(** X24.  Once the configuration and the barcode table are loaded, if
    the lookup as the job performs it (membership in the plate list)
    selects no row of the table, the job ends with [IndexError], an
    instance of the class of that name, which no handler catches: it is
    the result of the run; and the run has printed and written
    nothing. *)
Theorem no_selected_barcode_raises_IndexError (w : World)
  (sql_file metadata_dir barcode_path cell_count_out aggregate_file_out
   config : string) (cfgs : Py.obj) (bdf sel : DataFrame) :
  result (load_config w config) = inr cfgs ->
  read_csv w barcode_path = Some bdf ->
  In "Plate_Map_Name" (columns bdf) ->
  select_barcodes bdf (plate_of sql_file) = inr sel ->
  rows sel = [] ->
  let job := aggregate w sql_file metadata_dir barcode_path cell_count_out
                       aggregate_file_out config in
  result job = inl Py.IndexError
  /\ Py.isinstance Py.IndexError "IndexError" = true
  /\ trace job = []
  /\ writes job = []
  /\ csv_written job = [].
Proof.
  intros Hc Hb Hin Hs Hr. cbv zeta.
  rewrite (aggregate_lookup_error _ _ _ _ _ _ _ _ _ _ Hc Hb
             (lookup_platemap_none _ _ _ Hs Hr Hin)).
  repeat split.
Qed.

Lemma no_selected_barcode_raises_IndexError_witness :
  (select_barcodes Sample.barcodes (plate_of "data/PlateB.sqlite")
   = inr {| columns := ["Assay_Plate_Barcode"; "Plate_Map_Name"];
            rows := [] |})
  /\ result (Sample.run_PlateB Sample.world) = inl Py.IndexError
  /\ Py.isinstance Py.IndexError "IndexError" = true
  /\ trace (Sample.run_PlateB Sample.world) = []
  /\ writes (Sample.run_PlateB Sample.world) = []
  /\ csv_written (Sample.run_PlateB Sample.world) = [].
Proof.
  split; [vm_compute; reflexivity |].
  apply (no_selected_barcode_raises_IndexError Sample.world
           "data/PlateB.sqlite" "data/metadata" "data/barcode.csv"
           "results/PlateB_cellcounts.tsv" "results/PlateB.csv.gz"
           "configs/aggregate.yaml" Sample.params Sample.barcodes
           {| columns := ["Assay_Plate_Barcode"; "Plate_Map_Name"];
              rows := [] |}).
  - vm_compute. reflexivity.
  - vm_compute. reflexivity.
  - simpl. auto.
  - vm_compute. reflexivity.
  - reflexivity.
Defined.

(** C7 (the claim fails).  The barcode row of [PlateA] names [MapX] and
    the file [data/metadata/platemap/MapX.csv] is absent: the job raises
    [FileNotFoundError], which is not a [MissingFileError]. *)
Lemma missing_platemap_raises_FileNotFoundError :
  result (Sample.run_PlateA Sample.world_without_platemap)
  = inl (Py.FileNotFoundError "data/metadata/platemap/MapX.csv")
  /\ Py.isinstance (Py.FileNotFoundError "data/metadata/platemap/MapX.csv")
                   "MissingFileError" = false
  /\ Py.isinstance (Py.FileNotFoundError "data/metadata/platemap/MapX.csv")
                   "FileNotFoundError" = true.
Proof. repeat split; vm_compute; reflexivity. Qed.

(** C7 (amended).  Once the configuration and the barcode table are
    loaded, if the lookup selects one or more rows, the platemap name is
    the [Plate_Map_Name] cell of the first selected row; the platemap path
    is [os.path.join(metadata_dir, "platemap", name + ".csv")], which for
    a directory without trailing slash and a name without leading slash
    reads [metadata_dir/platemap/name.csv]; when no file is there the job
    ends with [FileNotFoundError] on that path, having printed and written
    nothing; and a cell-count file that the job writes comes from the
    join with the table read from that path. *)
Theorem platemap_of_first_selected_row (w : World)
  (sql_file metadata_dir barcode_path cell_count_out aggregate_file_out
   config : string) (cfgs : Py.obj) (bdf sel : DataFrame)
  (first : list string) (rest : list (list string)) (i : nat) :
  result (load_config w config) = inr cfgs ->
  read_csv w barcode_path = Some bdf ->
  select_barcodes bdf (plate_of sql_file) = inr sel ->
  rows sel = first :: rest ->
  col_index "Plate_Map_Name" (columns bdf) = Some i ->
  let job := aggregate w sql_file metadata_dir barcode_path cell_count_out
                       aggregate_file_out config in
  let name := cell i first in
  let path := Str.os_path_join metadata_dir ["platemap"; name ++ ".csv"] in
  result (lookup_platemap bdf (plate_of sql_file)) = inr name
  /\ (metadata_dir <> "" ->
      Str.endswith metadata_dir "/"%char = false ->
      Str.startswith name "/"%char = false ->
      path = metadata_dir ++ "/platemap/" ++ name ++ ".csv")
  /\ (read_csv w path = None ->
      job = raise (Py.FileNotFoundError path)
      /\ Py.isinstance (Py.FileNotFoundError path) "FileNotFoundError"
         = true)
  /\ (forall p f,
         In (p, f) (csv_written job) ->
         exists pdf cc out,
           read_csv w path = Some pdf
           /\ join_platemap cc pdf = inr out
           /\ f = to_csv out TAB true false).
Proof.
  intros Hc Hb Hs Hr Hi. cbv zeta.
  pose proof (lookup_platemap_first _ _ _ _ _ _ Hs Hr Hi) as Hl.
  split; [exact Hl |]. split; [| split].
  - intros Hne Hend Hstart. now apply platemap_path_plain.
  - intros Hp. split; [| reflexivity].
    exact (aggregate_platemap_missing _ _ _ _ _ _ _ _ _ _ Hc Hb Hl Hp).
  - intros p f Hin.
    destruct (aggregate_csv_written _ _ _ _ _ _ _ _ _ Hin)
      as (cfgs' & bdf' & platemap' & pdf & args & cc & out & _ & Hb' & Hl'
          & Hp' & _ & _ & _ & Hj & _ & -> & _).
    rewrite Hb in Hb'. injection Hb' as <-.
    rewrite Hl in Hl'. injection Hl' as <-.
    exists pdf, cc, out. auto.
Qed.

Lemma platemap_of_first_selected_row_witness :
  result (lookup_platemap Sample.barcodes (plate_of "data/PlateA.sqlite"))
  = inr "MapX"
  /\ Str.os_path_join "data/metadata" ["platemap"; "MapX" ++ ".csv"]
     = "data/metadata/platemap/MapX.csv"
  /\ Sample.run_PlateA Sample.world_without_platemap
     = raise (Py.FileNotFoundError "data/metadata/platemap/MapX.csv").
Proof.
  destruct (platemap_of_first_selected_row Sample.world_without_platemap
              "data/PlateA.sqlite" "data/metadata" "data/barcode.csv"
              "results/PlateA_cellcounts.tsv" "results/PlateA.csv.gz"
              "configs/aggregate.yaml" Sample.params Sample.barcodes
              Sample.barcodes ["PlateA"; "MapX"] [] 1)
    as (H1 & H2 & H3 & _); try (vm_compute; reflexivity).
  split; [exact H1 |]. split.
  - apply H2; [discriminate | reflexivity | reflexivity].
  - apply H3. reflexivity.
Defined.

(** C8.  A cell-count file that the job writes holds the join of the count
    table returned by the capability with the platemap read for the
    plate; if every row of the count table has exactly one platemap row
    with its well position, the file has, after its header, exactly as
    many rows as the count table. *)
Theorem one_to_one_join_keeps_row_count (w : World)
  (sql_file metadata_dir barcode_path cell_count_out aggregate_file_out
   config : string) (path : string) (file : CsvFile) :
  In (path, file)
     (csv_written (aggregate w sql_file metadata_dir barcode_path
                             cell_count_out aggregate_file_out config)) ->
  exists args cc bdf platemap pm i j,
    In (Construct args)
       (trace (aggregate w sql_file metadata_dir barcode_path
                         cell_count_out aggregate_file_out config))
    /\ count_cells w args = inr cc
    /\ read_csv w barcode_path = Some bdf
    /\ result (lookup_platemap bdf (plate_of sql_file)) = inr platemap
    /\ read_csv w (platemap_path metadata_dir platemap) = Some pm
    /\ col_index "Image_Metadata_Well" (columns cc) = Some i
    /\ col_index "well_position" (columns pm) = Some j
    /\ ((forall l, In l (rows cc) ->
                   List.length (matches i j (rows pm) l) = 1) ->
        exists header body,
          records file = header :: body
          /\ List.length body = List.length (rows cc)).
Proof.
  intros H.
  destruct (aggregate_csv_written _ _ _ _ _ _ _ _ _ H)
    as (cfgs & bdf & platemap & pdf & args & cc & out & Hc & Hb & Hl & Hp
        & Ha & Hs & Hn & Hj & _ & -> & Hw).
  destruct (join_platemap_inv _ _ _ Hj) as (merged & Hm & _).
  destruct (merge_inv _ _ _ _ _ Hm) as (i & j & Hi & Hj' & _).
  exists args, cc, bdf, platemap, pdf, i, j. repeat split; auto.
  { rewrite (aggregate_after_reads _ _ _ _ _ _ _ _ _ _ _ _ Hc Hb Hl Hp Ha).
    rewrite Hs, Hn, Hj, Hw. now left. }
  intros Hone. exists (columns out), (rows out).
  split; [apply to_csv_records |].
  rewrite (join_rows_length _ _ _ _ _ Hi Hj' Hj).
  rewrite <- (length_map (fun l => List.length (matches i j (rows pdf) l))
                         (rows cc)).
  assert (Hall : forall n,
             In n (map (fun l => List.length (matches i j (rows pdf) l))
                       (rows cc)) -> n = 1).
  { intros n Hn'. apply in_map_iff in Hn'.
    destruct Hn' as (l & <- & Hin). now apply Hone. }
  revert Hall.
  generalize (map (fun l => List.length (matches i j (rows pdf) l))
                  (rows cc)).
  intros ns. induction ns as [| n ns IH]; intros Hall; [reflexivity |].
  change (list_sum (n :: ns)) with (n + list_sum ns).
  cbn [List.length].
  rewrite (Hall n) by now left.
  rewrite IH by (intros m Hm'; apply Hall; now right). reflexivity.
Qed.

Lemma one_to_one_join_keeps_row_count_witness :
  exists header body,
    [["Image_Metadata_Well"; "cell_count"; "treatment"];
     ["A01"; "12"; "DMSO"];
     ["A02"; "7"; "drugX"]] = header :: body
    /\ List.length body = List.length (rows Sample.counts).
Proof.
  assert (H : In ("results/PlateA_cellcounts.tsv",
                  {| sep := String (ascii_of_nat 9) EmptyString;
                     records :=
                       [["Image_Metadata_Well"; "cell_count"; "treatment"];
                        ["A01"; "12"; "DMSO"];
                        ["A02"; "7"; "drugX"]] |})
                 (csv_written (Sample.run_PlateA Sample.world))).
  { vm_compute. left. reflexivity. }
  destruct (one_to_one_join_keeps_row_count _ _ _ _ _ _ _ _ _ H)
    as (args & cc & bdf & platemap & pm & i & j & _ & Hn & _ & _ & Hp & Hi
        & Hj & Hone).
  injection Hn as <-.
  assert (Hpm : pm = Sample.platemap).
  { cbn in Hp. destruct (String.eqb _ "data/barcode.csv") eqn:E1.
    - injection Hp as <-. vm_compute in Hj. discriminate.
    - destruct (String.eqb _ "data/metadata/platemap/MapX.csv");
        [now injection Hp | discriminate]. }
  subst pm. vm_compute in Hi, Hj.
  injection Hi as <-. injection Hj as <-.
  apply Hone. intros l Hl.
  destruct Hl as [<- | [<- | []]]; reflexivity.
Defined.

(** ** The package path *)

Import CytoPaths.

(** The sibling [get_project_root] calls [exists()] and does raise when
    the marker folder is absent. *)
Lemma get_project_root_raises (fs : FileSystem) (cwd : Path) :
  fs (truediv cwd ".cytosnake") = false ->
  get_project_root fs cwd
  = inl (Py.FileNotFoundError "Current directory is not a project folder").
Proof. intros H. unfold get_project_root. simpl. now rewrite H. Qed.

(** C10.  For every file system and package directory,
    [get_cytosnake_package_path] returns the parent of the package
    directory: the guard tests the method object [exists], which is true,
    so no exception is raised, whether or not [.git] exists there. *)
Theorem get_cytosnake_package_path_never_raises (fs : FileSystem)
  (package_dir : Path) :
  truth (getattr_exists (truediv (parent package_dir) ".git")) = true
  /\ get_cytosnake_package_path fs package_dir = inr (parent package_dir)
  /\ (forall e, get_cytosnake_package_path fs package_dir <> inl e).
Proof.
  unfold get_cytosnake_package_path. simpl.
  repeat split. intros e. discriminate.
Qed.

(** * Further properties *)

(** ** The plate list of line 50 *)

Lemma contains_append (c : ascii) (a b : string) :
  Str.contains c (a ++ b) = (Str.contains c a || Str.contains c b)%bool.
Proof.
  induction a as [| x a IH]; [reflexivity |].
  simpl. rewrite IH. now rewrite orb_assoc.
Qed.

Lemma rpartition_absent (c : ascii) (s : string) :
  Str.contains c s = false -> Str.rpartition c s = None.
Proof.
  induction s as [| a s IH]; [reflexivity |].
  simpl. intros H. apply orb_false_iff in H. destruct H as [Ha Hs].
  now rewrite (IH Hs), Ha.
Qed.

Lemma rpartition_append (c : ascii) (a q : string) :
  Str.contains c q = false ->
  Str.rpartition c (a ++ String c q) = Some (a, q).
Proof.
  intros Hq. induction a as [| x a IH].
  - simpl. now rewrite (rpartition_absent _ _ Hq), Ascii.eqb_refl.
  - change (String x a ++ String c q) with (String x (a ++ String c q)).
    simpl. now rewrite IH.
Qed.

Lemma basename_no_slash (p : string) :
  Str.contains "/"%char (Str.basename p) = false.
Proof.
  unfold Str.basename.
  destruct (Str.rpartition "/"%char p) as [[d f] | ] eqn:E.
  - now destruct (rpartition_some _ _ _ _ E).
  - now apply rpartition_none.
Qed.

(** X1.  The list bound to [plate] has one or two elements; joined with
    a dot they give back the base name of the data file; it has one
    element exactly when the base name has no dot; the last of two has no
    dot; and no element has a slash. *)
Theorem plate_of_joins_to_basename (sql_file : string) :
  String.concat "." (plate_of sql_file) = Str.basename sql_file
  /\ (List.length (plate_of sql_file) = 1
      \/ List.length (plate_of sql_file) = 2)
  /\ (List.length (plate_of sql_file) = 1
      <-> Str.contains "."%char (Str.basename sql_file) = false)
  /\ (List.length (plate_of sql_file) = 2 ->
      Str.contains "."%char (last (plate_of sql_file) "") = false)
  /\ (forall s, In s (plate_of sql_file) ->
                Str.contains "/"%char s = false).
Proof.
  pose proof (basename_no_slash sql_file) as Hslash.
  destruct (plate_of_cases sql_file)
    as [[Hno ->] | (stem & ext & Hb & Hext & ->)].
  - repeat split; auto; try (intros; discriminate).
    intros s [<- | []]. exact Hslash.
  - rewrite Hb in *. repeat split; auto; try (intros; discriminate).
    + intros Hc. rewrite contains_append in Hc. simpl in Hc.
      rewrite orb_true_r in Hc. discriminate.
    + rewrite contains_append in Hslash. simpl in Hslash.
      apply orb_false_iff in Hslash. destruct Hslash as [Hs He].
      intros s [<- | [<- | []]]; assumption.
Qed.

(** X2.  The directories of the data path play no part: for a file name
    without slash, the base name of [dir/name] is [name] and the plate
    list is that of [name]. *)
Theorem plate_of_ignores_directories (dir file : string) :
  Str.contains "/"%char file = false ->
  Str.basename (dir ++ "/" ++ file) = file
  /\ plate_of (dir ++ "/" ++ file) = plate_of file.
Proof.
  intros H.
  assert (H1 : Str.basename (dir ++ "/" ++ file) = file).
  { unfold Str.basename.
    change (dir ++ "/" ++ file) with (dir ++ String "/"%char file).
    now rewrite (rpartition_append _ dir _ H). }
  assert (H2 : Str.basename file = file).
  { unfold Str.basename. now rewrite (rpartition_absent _ _ H). }
  split; [exact H1 |]. unfold plate_of. now rewrite H1, H2.
Qed.

Lemma plate_of_ignores_directories_witness :
  Str.basename ("data/batch1" ++ "/" ++ "PlateA.sqlite") = "PlateA.sqlite"
  /\ plate_of ("data/batch1" ++ "/" ++ "PlateA.sqlite")
     = plate_of "PlateA.sqlite".
Proof.
  apply (plate_of_ignores_directories "data/batch1" "PlateA.sqlite").
  reflexivity.
Defined.

Lemma mem_In (s : string) (l : list string) : mem s l = true <-> In s l.
Proof.
  unfold mem. rewrite existsb_exists. split.
  - intros (x & Hx & He). apply String.eqb_eq in He. now subst.
  - intros H. exists s. split; [exact H | apply String.eqb_refl].
Qed.

(** ** The platemap path of line 55 *)

(** X4.  A platemap name that starts with a slash makes [os.path.join]
    drop the metadata directory and the [platemap] folder: the path is
    the name itself with [.csv] appended. *)
Theorem platemap_path_absolute_name (metadata_dir platemap : string) :
  Str.startswith platemap "/"%char = true ->
  platemap_path metadata_dir platemap = platemap ++ ".csv".
Proof.
  intros H. unfold platemap_path, Str.os_path_join. cbn [fold_left].
  unfold Str.join_step at 1.
  destruct platemap as [| a p]; [discriminate |].
  change (String a p ++ ".csv") with (String a (p ++ ".csv")).
  cbn [Str.startswith] in *. now rewrite H.
Qed.

Lemma platemap_path_absolute_name_witness :
  platemap_path "data/metadata" "/etc/maps/MapX" = "/etc/maps/MapX.csv".
Proof.
  apply (platemap_path_absolute_name "data/metadata" "/etc/maps/MapX").
  reflexivity.
Defined.

(** X5.  For a platemap name without leading slash: an empty metadata
    directory gives the relative path [platemap/name.csv], and a
    directory that ends with a slash gets no second slash. *)
Theorem platemap_path_empty_or_slash (metadata_dir platemap : string) :
  Str.startswith platemap "/"%char = false ->
  (metadata_dir = "" ->
   platemap_path metadata_dir platemap = "platemap/" ++ platemap ++ ".csv")
  /\ (Str.endswith metadata_dir "/"%char = true ->
      platemap_path metadata_dir platemap
      = metadata_dir ++ "platemap/" ++ platemap ++ ".csv").
Proof.
  intros Hstart.
  assert (H2 : Str.startswith (platemap ++ ".csv") "/"%char = false).
  { destruct platemap; [reflexivity | exact Hstart]. }
  assert (Hstep : forall d, d <> "" ->
            Str.join_step (d ++ "platemap") (platemap ++ ".csv")
            = d ++ "platemap/" ++ platemap ++ ".csv").
  { intros d _. unfold Str.join_step. rewrite H2.
    assert (H3 : String.eqb (d ++ "platemap") "" = false).
    { apply String.eqb_neq. apply append_nonempty. discriminate. }
    rewrite H3, endswith_append by discriminate.
    cbn [orb Str.endswith Ascii.eqb Bool.eqb].
    rewrite append_assoc. reflexivity. }
  split.
  - intros ->. unfold platemap_path, Str.os_path_join. cbn [fold_left].
    change (Str.join_step "" "platemap") with "platemap".
    unfold Str.join_step. rewrite H2. reflexivity.
  - intros Hend. unfold platemap_path, Str.os_path_join. cbn [fold_left].
    assert (H1 : Str.join_step metadata_dir "platemap"
                 = metadata_dir ++ "platemap").
    { unfold Str.join_step. cbn [Str.startswith Ascii.eqb Bool.eqb].
      rewrite Hend. now rewrite orb_true_r. }
    rewrite H1. apply Hstep.
    destruct metadata_dir; [discriminate Hend | discriminate].
Qed.

Lemma platemap_path_empty_or_slash_witness :
  platemap_path "" "MapX" = "platemap/MapX.csv"
  /\ platemap_path "data/metadata/" "MapX"
     = "data/metadata/platemap/MapX.csv".
Proof.
  destruct (platemap_path_empty_or_slash "" "MapX" eq_refl) as [H1 _].
  destruct (platemap_path_empty_or_slash "data/metadata/" "MapX" eq_refl)
    as [_ H2].
  split; [now apply H1 | now apply H2].
Defined.

(** ** The order of what a job does *)

(** X6.  Whatever the inputs, the trace of a job is an initial part of
    one fixed sequence: construction of the capability, the counting
    message, the saving message, the cell-count write, the aggregating
    message, the aggregate-profile request.  It stops after 0, 1, 2, 3
    or all 6 events, and a run that stops before the end has raised. *)
Theorem trace_is_prefix_of_full_run (w : World)
  (sql_file metadata_dir barcode_path cell_count_out aggregate_file_out
   config : string) :
  let job := aggregate w sql_file metadata_dir barcode_path cell_count_out
                       aggregate_file_out config in
  exists args out k,
    trace job
    = firstn k (Shape.full_trace args out cell_count_out aggregate_file_out)
    /\ (k = 0 \/ k = 1 \/ k = 2 \/ k = 3 \/ k = 6)
    /\ (k < 6 -> exists e, result job = inl e).
Proof.
  cbv zeta.
  destruct (aggregate_reads_cases w sql_file metadata_dir barcode_path
              cell_count_out aggregate_file_out config)
    as [[e He] | (cfgs & bdf & platemap & pdf & args & Hc & Hb & Hl & Hp & Ha)].
  - rewrite He.
    exists {| Job.sql_file := ""; strata := Py.PyNone;
              image_cols := Py.PyNone; aggregation_operation := Py.PyNone;
              output_file := Py.PyNone; merge_cols := Py.PyNone;
              add_image_features := Py.PyNone;
              image_feature_categories := Py.PyNone;
              features := Py.PyNone; load_image_data := Py.PyNone;
              subsample_frac := Py.PyNone;
              subsampling_random_state := Py.PyNone;
              fields_of_view := Py.PyNone; fields_of_view_feature := "";
              object_feature := Py.PyNone |},
           {| columns := []; rows := [] |}, 0.
    split; [reflexivity |]. split; [auto |]. intros _. now exists e.
  - rewrite (aggregate_after_reads _ _ _ _ _ _ _ _ _ _ _ _ Hc Hb Hl Hp Ha).
    exists args.
    destruct (SingleCells w args) as [e | ].
    { exists {| columns := []; rows := [] |}, 1.
      split; [reflexivity |]. split; [auto |]. intros _. now exists e. }
    destruct (count_cells w args) as [e | cc].
    { exists {| columns := []; rows := [] |}, 2.
      split; [reflexivity |]. split; [auto |]. intros _. now exists e. }
    destruct (join_platemap cc pdf) as [e | out].
    { exists {| columns := []; rows := [] |}, 3.
      split; [reflexivity |]. split; [auto |]. intros _. now exists e. }
    destruct (to_csv_error w cell_count_out) as [e | ].
    { exists out, 3.
      split; [reflexivity |]. split; [auto |]. intros _. now exists e. }
    exists out, 6. split; [reflexivity |]. split; [auto 6 | lia].
Qed.

(** X7.  A job either writes nothing, or writes the cell-count file and
    then asks the capability for the aggregate profile: the first always
    to [cell_count_out], the second always to [aggregate_file_out] with
    gzip compression, each once; and a job that returns has done both. *)
Theorem writes_go_to_own_paths (w : World)
  (sql_file metadata_dir barcode_path cell_count_out aggregate_file_out
   config : string) :
  let job := aggregate w sql_file metadata_dir barcode_path cell_count_out
                       aggregate_file_out config in
  (writes job = []
   \/ exists file,
        writes job = [ToCsv cell_count_out file;
                      AggregateProfiles aggregate_file_out "gzip"])
  /\ (forall u, result job = inr u ->
                exists file,
                  writes job = [ToCsv cell_count_out file;
                                AggregateProfiles aggregate_file_out "gzip"]).
Proof.
  cbv zeta.
  destruct (aggregate_reads_cases w sql_file metadata_dir barcode_path
              cell_count_out aggregate_file_out config)
    as [[e He] | (cfgs & bdf & platemap & pdf & args & Hc & Hb & Hl & Hp & Ha)].
  - rewrite He. split; [now left | discriminate].
  - rewrite (aggregate_after_reads _ _ _ _ _ _ _ _ _ _ _ _ Hc Hb Hl Hp Ha).
    destruct (SingleCells w args) as [e | ];
      [split; [now left | discriminate] |].
    destruct (count_cells w args) as [e | cc];
      [split; [now left | discriminate] |].
    destruct (join_platemap cc pdf) as [e | out];
      [split; [now left | discriminate] |].
    destruct (to_csv_error w cell_count_out) as [e | ];
      [split; [now left | discriminate] |].
    split; [right |]; eexists; reflexivity.
Qed.

(** ** Errors of the reads *)

Lemma col_index_absent (name : string) (cols : list string) :
  ~ In name cols -> col_index name cols = None.
Proof.
  induction cols as [| c cols IH]; [reflexivity |].
  intros Hn. simpl. destruct (String.eqb_spec c name) as [-> | _].
  - destruct Hn. now left.
  - rewrite IH; [reflexivity |]. intros H. apply Hn. now right.
Qed.

Lemma aggregate_barcode_stage (w : World)
  (sql_file metadata_dir barcode_path cell_count_out aggregate_file_out
   config : string) (cfgs : Py.obj) :
  result (load_config w config) = inr cfgs ->
  read_csv w barcode_path = None ->
  aggregate w sql_file metadata_dir barcode_path cell_count_out
            aggregate_file_out config
  = raise (Py.FileNotFoundError barcode_path).
Proof.
  intros Hc Hb. unfold aggregate.
  rewrite bind_silent, Hc by auto with silent.
  unfold pd_read_csv at 1. now rewrite Hb.
Qed.

(** X8.  With the configuration loaded, a missing barcode file ends the
    job with [FileNotFoundError] on its path; a table without the
    [Assay_Plate_Barcode] column ends it with [UndefinedVariableError],
    and one with that column but without [Plate_Map_Name] with
    [AttributeError], whether or not a row matches.  Nothing is printed
    or written in any of the three cases. *)
Theorem barcode_table_errors (w : World)
  (sql_file metadata_dir barcode_path cell_count_out aggregate_file_out
   config : string) (cfgs : Py.obj) :
  result (load_config w config) = inr cfgs ->
  let job := aggregate w sql_file metadata_dir barcode_path cell_count_out
                       aggregate_file_out config in
  (read_csv w barcode_path = None ->
   job = raise (Py.FileNotFoundError barcode_path))
  /\ (forall bdf,
         read_csv w barcode_path = Some bdf ->
         ~ In "Assay_Plate_Barcode" (columns bdf) ->
         job = raise (Py.UndefinedVariableError "Assay_Plate_Barcode"))
  /\ (forall bdf,
         read_csv w barcode_path = Some bdf ->
         In "Assay_Plate_Barcode" (columns bdf) ->
         ~ In "Plate_Map_Name" (columns bdf) ->
         job = raise (Py.AttributeError "Plate_Map_Name")).
Proof.
  intros Hc. cbv zeta. split; [| split].
  - intros Hb. now apply aggregate_barcode_stage with (cfgs := cfgs).
  - intros bdf Hb Hn.
    apply (aggregate_lookup_error _ _ _ _ _ _ _ _ _ _ Hc Hb).
    unfold lookup_platemap, select_barcodes, query_eq.
    now rewrite (col_index_absent _ _ Hn).
  - intros bdf Hb Hin Hn.
    apply (aggregate_lookup_error _ _ _ _ _ _ _ _ _ _ Hc Hb).
    unfold lookup_platemap, select_barcodes, query_eq.
    destruct (col_index_of_In _ _ Hin) as [i ->].
    rewrite bind_lift, bind_lift. unfold column_values. cbn [columns].
    now rewrite (col_index_absent _ _ Hn).
Qed.

Lemma barcode_table_errors_witness :
  aggregate Sample.world "data/PlateA.sqlite" "data/metadata"
            "data/missing.csv" "results/PlateA_cellcounts.tsv"
            "results/PlateA.csv.gz" "configs/aggregate.yaml"
  = raise (Py.FileNotFoundError "data/missing.csv")
  /\ Sample.run_PlateA
       (Cases.make_world (Some Sample.document) (Some Sample.platemap)
                         (Some Sample.platemap) (inr Sample.counts) None)
     = raise (Py.UndefinedVariableError "Assay_Plate_Barcode")
  /\ Sample.run_PlateB
       (Cases.make_world (Some Sample.document)
                         (Some Cases.barcodes_without_names)
                         (Some Sample.platemap) (inr Sample.counts) None)
     = raise (Py.AttributeError "Plate_Map_Name").
Proof.
  split; [| split].
  - apply (barcode_table_errors Sample.world "data/PlateA.sqlite"
             "data/metadata" "data/missing.csv"
             "results/PlateA_cellcounts.tsv" "results/PlateA.csv.gz"
             "configs/aggregate.yaml" Sample.params); reflexivity.
  - apply (barcode_table_errors
             (Cases.make_world (Some Sample.document) (Some Sample.platemap)
                (Some Sample.platemap) (inr Sample.counts) None)
             "data/PlateA.sqlite" "data/metadata" "data/barcode.csv"
             "results/PlateA_cellcounts.tsv" "results/PlateA.csv.gz"
             "configs/aggregate.yaml" Sample.params eq_refl)
      with (bdf := Sample.platemap); [reflexivity |].
    simpl. intros [H | [H | [H | [H | []]]]]; discriminate H.
  - apply (barcode_table_errors
             (Cases.make_world (Some Sample.document)
                (Some Cases.barcodes_without_names)
                (Some Sample.platemap) (inr Sample.counts) None)
             "data/PlateB.sqlite" "data/metadata" "data/barcode.csv"
             "results/PlateB_cellcounts.tsv" "results/PlateB.csv.gz"
             "configs/aggregate.yaml" Sample.params eq_refl)
      with (bdf := Cases.barcodes_without_names);
      [reflexivity | simpl; auto |].
    simpl. intros [H | [H | []]]; discriminate H.
Defined.

(** ** Errors of the configuration parameters and of the capability *)

Lemma getitem_dict_absent (items : list (Py.obj * Py.obj)) (key : string) :
  Shape.has_key items key = false ->
  Py.getitem (Py.PyDict items) key = inl (Py.KeyError key).
Proof.
  unfold Shape.has_key. simpl. induction items as [| kv items IH];
    [reflexivity |].
  simpl. intros H. apply orb_false_iff in H. destruct H as [H1 H2].
  rewrite H1. now apply IH.
Qed.

Lemma getitem_dict_present (items : list (Py.obj * Py.obj)) (key : string) :
  Shape.has_key items key = true ->
  exists v, Py.getitem (Py.PyDict items) key = inr v.
Proof.
  unfold Shape.has_key. simpl. induction items as [| kv items IH];
    [discriminate |].
  simpl. destruct (Py.is_key key (fst kv)); [intros _; now eexists |].
  simpl. exact IH.
Qed.

Lemma aggregate_args_error (w : World)
  (sql_file metadata_dir barcode_path cell_count_out aggregate_file_out
   config : string)
  (cfgs : Py.obj) (bdf pdf : DataFrame) (platemap : string) (e : Py.exn) :
  result (load_config w config) = inr cfgs ->
  read_csv w barcode_path = Some bdf ->
  result (lookup_platemap bdf (plate_of sql_file)) = inr platemap ->
  read_csv w (platemap_path metadata_dir platemap) = Some pdf ->
  result (single_cells_args sql_file cfgs) = inl e ->
  aggregate w sql_file metadata_dir barcode_path cell_count_out
            aggregate_file_out config = raise e.
Proof.
  intros Hc Hb Hl Hp Ha. unfold aggregate.
  rewrite bind_silent, Hc by auto with silent.
  unfold pd_read_csv at 1. rewrite Hb. rewrite bind_silent by reflexivity.
  cbn [result ret].
  rewrite bind_silent, Hl by auto with silent.
  unfold pd_read_csv. rewrite Hp. rewrite bind_silent by reflexivity.
  cbn [result ret].
  rewrite bind_silent, Ha by auto with silent. reflexivity.
Qed.

Lemma single_cells_args_missing_key (sql_file : string)
  (items : list (Py.obj * Py.obj)) (key : string) :
  find (fun k => negb (Shape.has_key items k)) Shape.constructor_keys
  = Some key ->
  result (single_cells_args sql_file (Py.PyDict items))
  = inl (Py.KeyError key).
Proof.
  unfold Shape.constructor_keys, single_cells_args. cbn [find].
  repeat
    (rewrite bind_lift;
     match goal with
     | |- context [match Py.getitem (Py.PyDict items) ?k with _ => _ end] =>
         destruct (Shape.has_key items k) eqn:E;
         [ destruct (getitem_dict_present _ _ E) as [? ->]; clear E;
           cbn [negb]
         | rewrite (getitem_dict_absent _ _ E); cbn [negb];
           intros [= <-]; reflexivity ]
     end).
  discriminate.
Qed.

(** X9.  After the four reads have gone through, the parameters are read
    from the section in the order of the constructor call: when the
    section is a mapping that lacks some of the thirteen keys, the job
    ends with [KeyError] on the first one that is absent, before the
    capability is constructed and with nothing printed or written. *)
Theorem missing_parameter_raises_KeyError (w : World)
  (sql_file metadata_dir barcode_path cell_count_out aggregate_file_out
   config : string)
  (items : list (Py.obj * Py.obj)) (bdf pdf : DataFrame)
  (platemap key : string) :
  result (load_config w config) = inr (Py.PyDict items) ->
  read_csv w barcode_path = Some bdf ->
  result (lookup_platemap bdf (plate_of sql_file)) = inr platemap ->
  read_csv w (platemap_path metadata_dir platemap) = Some pdf ->
  find (fun k => negb (Shape.has_key items k)) Shape.constructor_keys
  = Some key ->
  aggregate w sql_file metadata_dir barcode_path cell_count_out
            aggregate_file_out config
  = raise (Py.KeyError key).
Proof.
  intros Hc Hb Hl Hp Hk.
  apply (aggregate_args_error _ _ _ _ _ _ _ _ _ _ _ _ Hc Hb Hl Hp).
  now apply single_cells_args_missing_key.
Qed.

Lemma missing_parameter_raises_KeyError_witness :
  Sample.run_PlateA Cases.world_without_features
  = raise (Py.KeyError "features").
Proof.
  apply (missing_parameter_raises_KeyError Cases.world_without_features
           "data/PlateA.sqlite" "data/metadata" "data/barcode.csv"
           "results/PlateA_cellcounts.tsv" "results/PlateA.csv.gz"
           "configs/aggregate.yaml" Cases.params_without_features
           Sample.barcodes Sample.platemap "MapX" "features");
    reflexivity.
Defined.

(** X10.  After the reads and the construction, an error of the
    capability or of the write is the result of the job as it is: raised
    by the constructor, only the construction has happened; raised by
    [count_cells], the counting message is out and nothing is written;
    raised by [to_csv], nothing is written and no aggregate profile is
    asked for; raised by [aggregate_profiles] after a write that went
    through, the cell-count file has been written and stays. *)
Theorem capability_errors_surface (w : World)
  (sql_file metadata_dir barcode_path cell_count_out aggregate_file_out
   config : string)
  (cfgs : Py.obj) (bdf pdf : DataFrame) (platemap : string)
  (args : SingleCellsArgs) (e : Py.exn) :
  result (load_config w config) = inr cfgs ->
  read_csv w barcode_path = Some bdf ->
  result (lookup_platemap bdf (plate_of sql_file)) = inr platemap ->
  read_csv w (platemap_path metadata_dir platemap) = Some pdf ->
  result (single_cells_args sql_file cfgs) = inr args ->
  let job := aggregate w sql_file metadata_dir barcode_path cell_count_out
                       aggregate_file_out config in
  (SingleCells w args = Some e ->
   job = {| trace := [Construct args]; result := inl e |})
  /\ (SingleCells w args = None -> count_cells w args = inl e ->
      result job = inl e /\ writes job = []
      /\ trace job = [Construct args;
                      Print "Counting cells within each well"])
  /\ (forall cc out,
         SingleCells w args = None -> count_cells w args = inr cc ->
         join_platemap cc pdf = inr out ->
         to_csv_error w cell_count_out = Some e ->
         result job = inl e /\ writes job = []
         /\ trace job = [Construct args;
                         Print "Counting cells within each well";
                         Print ("Saving cell counts in: "
                                ++ cell_count_out)])
  /\ (forall cc out,
         SingleCells w args = None -> count_cells w args = inr cc ->
         join_platemap cc pdf = inr out ->
         to_csv_error w cell_count_out = None ->
         aggregate_profiles w args aggregate_file_out "gzip" = Some e ->
         result job = inl e
         /\ csv_written job
            = [(cell_count_out, to_csv out TAB true false)]).
Proof.
  intros Hc Hb Hl Hp Ha. cbv zeta.
  rewrite (aggregate_after_reads _ _ _ _ _ _ _ _ _ _ _ _ Hc Hb Hl Hp Ha).
  split; [| split; [| split]].
  - now intros ->.
  - intros -> ->. auto.
  - intros cc out -> -> -> ->. auto.
  - intros cc out -> -> -> -> ->. auto.
Qed.

Lemma capability_errors_surface_witness :
  (result (Sample.run_PlateA Cases.world_profiles_fail)
   = inl (Py.ExternalError "OperationalError")
   /\ csv_written (Sample.run_PlateA Cases.world_profiles_fail)
      = [("results/PlateA_cellcounts.tsv",
          to_csv {| columns := ["Image_Metadata_Well"; "cell_count";
                                "treatment"];
                    rows := [["A01"; "12"; "DMSO"];
                             ["A02"; "7"; "drugX"]] |}
                 TAB true false)])
  /\ (result (Sample.run_PlateA Cases.world_write_fails)
      = inl (Py.OSError
               "Cannot save file into a non-existent directory: 'results'")
      /\ writes (Sample.run_PlateA Cases.world_write_fails) = []).
Proof.
  split.
  - destruct (capability_errors_surface Cases.world_profiles_fail
                "data/PlateA.sqlite" "data/metadata" "data/barcode.csv"
                "results/PlateA_cellcounts.tsv" "results/PlateA.csv.gz"
                "configs/aggregate.yaml" Sample.params Sample.barcodes
                Sample.platemap "MapX" Cases.args_PlateA
                (Py.ExternalError "OperationalError")
                eq_refl eq_refl eq_refl eq_refl eq_refl)
      as (_ & _ & _ & H).
    apply (H Sample.counts); reflexivity.
  - destruct (capability_errors_surface Cases.world_write_fails
                "data/PlateA.sqlite" "data/metadata" "data/barcode.csv"
                "results/PlateA_cellcounts.tsv" "results/PlateA.csv.gz"
                "configs/aggregate.yaml" Sample.params Sample.barcodes
                Sample.platemap "MapX" Cases.args_PlateA
                (Py.OSError
                   "Cannot save file into a non-existent directory: 'results'")
                eq_refl eq_refl eq_refl eq_refl eq_refl)
      as (_ & _ & H & _).
    destruct (H Sample.counts
                {| columns := ["Image_Metadata_Well"; "cell_count";
                               "treatment"];
                   rows := [["A01"; "12"; "DMSO"];
                            ["A02"; "7"; "drugX"]] |}
                eq_refl eq_refl eq_refl eq_refl) as (H1 & H2 & _).
    split; [exact H1 | exact H2].
Defined.

(** X11.  When the join of lines 84-86 fails, the job has already
    printed that it is saving the cell counts, yet it writes no file and
    asks for no aggregate profile; the error of the join is its
    result. *)
Theorem failed_join_is_announced_not_written (w : World)
  (sql_file metadata_dir barcode_path cell_count_out aggregate_file_out
   config : string)
  (cfgs : Py.obj) (bdf pdf cc : DataFrame) (platemap : string)
  (args : SingleCellsArgs) (e : Py.exn) :
  result (load_config w config) = inr cfgs ->
  read_csv w barcode_path = Some bdf ->
  result (lookup_platemap bdf (plate_of sql_file)) = inr platemap ->
  read_csv w (platemap_path metadata_dir platemap) = Some pdf ->
  result (single_cells_args sql_file cfgs) = inr args ->
  SingleCells w args = None ->
  count_cells w args = inr cc ->
  join_platemap cc pdf = inl e ->
  let job := aggregate w sql_file metadata_dir barcode_path cell_count_out
                       aggregate_file_out config in
  result job = inl e
  /\ In (Print ("Saving cell counts in: " ++ cell_count_out)) (trace job)
  /\ writes job = [].
Proof.
  intros Hc Hb Hl Hp Ha Hs Hn Hj. cbv zeta.
  rewrite (aggregate_after_reads _ _ _ _ _ _ _ _ _ _ _ _ Hc Hb Hl Hp Ha).
  rewrite Hs, Hn, Hj. repeat split. simpl. auto.
Qed.

Lemma failed_join_is_announced_not_written_witness :
  result (Sample.run_PlateA Cases.world_without_WellCol)
  = inl (Py.KeyError "['WellCol'] not found in axis")
  /\ In (Print ("Saving cell counts in: " ++ "results/PlateA_cellcounts.tsv"))
        (trace (Sample.run_PlateA Cases.world_without_WellCol))
  /\ writes (Sample.run_PlateA Cases.world_without_WellCol) = [].
Proof.
  apply (failed_join_is_announced_not_written Cases.world_without_WellCol
           "data/PlateA.sqlite" "data/metadata" "data/barcode.csv"
           "results/PlateA_cellcounts.tsv" "results/PlateA.csv.gz"
           "configs/aggregate.yaml" Sample.params Sample.barcodes
           Cases.platemap_without_WellCol Sample.counts "MapX"
           {| Job.sql_file := "sqlite:///data/PlateA.sqlite";
              strata := Py.PyList [Py.PyStr "Image_Metadata_Plate";
                                   Py.PyStr "Image_Metadata_Well"];
              image_cols := Py.PyList [Py.PyStr "TableNumber";
                                       Py.PyStr "ImageNumber"];
              aggregation_operation := Py.PyStr "median";
              output_file := Py.PyStr "none";
              merge_cols := Py.PyList [Py.PyStr "TableNumber";
                                       Py.PyStr "ImageNumber"];
              add_image_features := Py.PyBool false;
              image_feature_categories := Py.PyList [Py.PyStr "Count"];
              features := Py.PyStr "infer";
              load_image_data := Py.PyBool true;
              subsample_frac := Py.PyFloat "1.0";
              subsampling_random_state := Py.PyInt 0;
              fields_of_view := Py.PyStr "all";
              fields_of_view_feature := "Image_Metadata_Well";
              object_feature := Py.PyStr "Metadata_ObjectNumber" |}
           (Py.KeyError "['WellCol'] not found in axis")); reflexivity.
Defined.

(** ** The joined table *)

Lemma merge_columns (left right merged : DataFrame)
  (left_on right_on : string) :
  merge left right left_on right_on = inr merged ->
  columns merged = (suffixed (columns left) (columns right) "_x"
                    ++ suffixed (columns right) (columns left) "_y")%list.
Proof.
  unfold merge.
  destruct (col_index right_on (columns right)); [| discriminate].
  destruct (col_index left_on (columns left)); [| discriminate].
  intros [= <-]. reflexivity.
Qed.

Lemma drop_cells_length (labels cols : list string) (row : list string) :
  List.length row = List.length cols ->
  List.length (drop_cells labels cols row)
  = List.length (filter (fun c => negb (mem c labels)) cols).
Proof.
  revert row. induction cols as [| c cols IH]; intros row H.
  - now destruct row.
  - destruct row as [| x row]; [discriminate |].
    injection H as H. simpl. destruct (mem c labels); simpl;
      now rewrite IH.
Qed.

(** X12.  The join keeps tables rectangular: when every row of the count
    table and of the platemap has one cell per column, so has every row
    of the joined table, and every record of the file written from it has
    as many fields as the header. *)
Theorem join_keeps_tables_rectangular (cc pm out : DataFrame) :
  Shape.rectangular cc -> Shape.rectangular pm ->
  join_platemap cc pm = inr out ->
  Shape.rectangular out
  /\ forall record, In record (records (to_csv out TAB true false)) ->
                    List.length record = List.length (columns out).
Proof.
  intros Hcc Hpm H.
  assert (Hout : Shape.rectangular out).
  { destruct (join_platemap_inv _ _ _ H) as (merged & Hm & Hd).
    destruct (merge_inv _ _ _ _ _ Hm) as (i & j & _ & _ & Hrows).
    pose proof (merge_columns _ _ _ _ _ Hm) as Hcols.
    destruct (drop_inv _ _ _ Hd) as [Hc Hr].
    intros x Hx. rewrite Hr in Hx. apply in_map_iff in Hx.
    destruct Hx as (y & <- & Hy). rewrite Hc. apply drop_cells_length.
    rewrite Hrows in Hy. apply in_flat_map in Hy.
    destruct Hy as (l & Hl & Hy). apply in_map_iff in Hy.
    destruct Hy as (r & <- & Hr'). apply matches_In in Hr'.
    rewrite Hcols, !length_app. unfold suffixed. rewrite !length_map.
    rewrite (Hcc l Hl), (Hpm r (proj1 Hr')). reflexivity. }
  split; [exact Hout |].
  intros record Hin. rewrite to_csv_records in Hin.
  destruct Hin as [<- | Hin]; [reflexivity | now apply Hout].
Qed.

Lemma join_keeps_tables_rectangular_witness :
  Shape.rectangular
    {| columns := ["Image_Metadata_Well"; "cell_count"; "treatment"];
       rows := [["A01"; "12"; "DMSO"]; ["A02"; "7"; "drugX"]] |}.
Proof.
  apply (join_keeps_tables_rectangular Sample.counts Sample.platemap).
  - intros r [<- | [<- | []]]; reflexivity.
  - intros r [<- | [<- | []]]; reflexivity.
  - reflexivity.
Defined.

Lemma suffixed_without_clash (own other : list string) (suffix : string) :
  (forall c, In c own -> ~ In c other) -> suffixed own other suffix = own.
Proof.
  intros H. unfold suffixed. induction own as [| c own IH];
    [reflexivity |].
  simpl. destruct (mem c other) eqn:E.
  - apply mem_In in E. destruct (H c); [now left | exact E].
  - f_equal. apply IH. intros c' Hc'. apply H. now right.
Qed.

Lemma drop_cells_app (labels A B : list string) (l r : list string) :
  List.length l = List.length A ->
  (forall c, In c A -> ~ In c labels) ->
  drop_cells labels (A ++ B) (l ++ r) = (l ++ drop_cells labels B r)%list.
Proof.
  revert l. induction A as [| a A IH]; intros l Hlen Hno.
  - destruct l; [reflexivity | discriminate].
  - destruct l as [| x l]; [discriminate |]. injection Hlen as Hlen.
    simpl. destruct (mem a labels) eqn:E.
    + apply mem_In in E. destruct (Hno a); [now left | exact E].
    + f_equal. apply IH; [exact Hlen |]. intros c Hc. apply Hno. now right.
Qed.

Lemma filter_all (f : string -> bool) (l : list string) :
  (forall c, In c l -> f c = true) -> filter f l = l.
Proof.
  induction l as [| c l IH]; [reflexivity |].
  intros H. simpl. rewrite (H c) by now left.
  f_equal. apply IH. intros c' Hc'. apply H. now right.
Qed.

(** X13.  For a rectangular count table that shares no column label
    with the platemap and has none of the three dropped labels, the
    joined table has the count columns first, as they are, then the
    platemap columns other than [WellRow], [WellCol] and
    [well_position]; and each of its rows is a count row, unchanged,
    followed by the remaining cells of a platemap row. *)
Theorem join_extends_count_rows (cc pm out : DataFrame) :
  Shape.rectangular cc ->
  (forall c, In c (columns cc) -> ~ In c (columns pm)) ->
  (forall c, In c (columns cc) ->
             ~ In c ["WellRow"; "WellCol"; "well_position"]) ->
  join_platemap cc pm = inr out ->
  columns out
  = (columns cc
     ++ filter (fun c => negb (mem c ["WellRow"; "WellCol";
                                      "well_position"]))
               (columns pm))%list
  /\ forall x, In x (rows out) ->
               exists l r,
                 In l (rows cc) /\ In r (rows pm)
                 /\ x = (l ++ drop_cells ["WellRow"; "WellCol";
                                          "well_position"]
                                         (columns pm) r)%list.
Proof.
  intros Hrect Hclash Hnone H.
  destruct (join_platemap_inv _ _ _ H) as (merged & Hm & Hd).
  destruct (merge_inv _ _ _ _ _ Hm) as (i & j & _ & _ & Hrows).
  pose proof (merge_columns _ _ _ _ _ Hm) as Hcols.
  rewrite (suffixed_without_clash (columns cc)) in Hcols by exact Hclash.
  rewrite (suffixed_without_clash (columns pm)) in Hcols
    by (intros c Hc Hc'; now apply (Hclash c)).
  destruct (drop_inv _ _ _ Hd) as [Hc Hr]. split.
  - rewrite Hc, Hcols, filter_app. f_equal. apply filter_all.
    intros c Hin. destruct (mem c _) eqn:E; [| reflexivity].
    apply mem_In in E. now destruct (Hnone c Hin).
  - intros x Hx. rewrite Hr in Hx. apply in_map_iff in Hx.
    destruct Hx as (y & <- & Hy). rewrite Hrows in Hy.
    apply in_flat_map in Hy. destruct Hy as (l & Hl & Hy).
    apply in_map_iff in Hy. destruct Hy as (r & <- & Hr').
    apply matches_In in Hr'. exists l, r.
    split; [exact Hl |]. split; [exact (proj1 Hr') |].
    rewrite Hcols. apply drop_cells_app; [now apply Hrect | exact Hnone].
Qed.

Lemma join_extends_count_rows_witness :
  ["Image_Metadata_Well"; "cell_count"; "treatment"]
  = (columns Sample.counts
     ++ filter (fun c => negb (mem c ["WellRow"; "WellCol";
                                      "well_position"]))
               (columns Sample.platemap))%list
  /\ forall x, In x [["A01"; "12"; "DMSO"]; ["A02"; "7"; "drugX"]] ->
               exists l r,
                 In l (rows Sample.counts) /\ In r (rows Sample.platemap)
                 /\ x = (l ++ drop_cells ["WellRow"; "WellCol";
                                          "well_position"]
                                         (columns Sample.platemap) r)%list.
Proof.
  apply (join_extends_count_rows Sample.counts Sample.platemap
           {| columns := ["Image_Metadata_Well"; "cell_count"; "treatment"];
              rows := [["A01"; "12"; "DMSO"]; ["A02"; "7"; "drugX"]] |}).
  - intros r [<- | [<- | []]]; reflexivity.
  - intros c [<- | [<- | []]] H; simpl in H;
      repeat (destruct H as [H | H]; [discriminate H |]); exact H.
  - intros c [<- | [<- | []]] H; simpl in H;
      repeat (destruct H as [H | H]; [discriminate H |]); exact H.
  - reflexivity.
Defined.

Lemma matches_at_most_one (i j : nat) (right_rows : list (list string))
  (l : list string) :
  NoDup (map (cell j) right_rows) ->
  List.length (matches i j right_rows l) <= 1.
Proof.
  unfold matches. induction right_rows as [| r rs IH]; intros Hnd;
    [simpl; lia |].
  simpl in Hnd. inversion Hnd as [| k ks Hnotin Hnd' Heq]. subst.
  simpl. destruct (String.eqb_spec (cell i l) (cell j r)) as [He | _].
  - assert (Hnil : filter (fun r0 => String.eqb (cell i l) (cell j r0)) rs
                   = []).
    { destruct (filter _ rs) as [| y ys] eqn:E; [reflexivity |].
      assert (Hy : In y (filter (fun r0 => String.eqb (cell i l)
                                                      (cell j r0)) rs))
        by (rewrite E; now left).
      apply filter_In in Hy. destruct Hy as [Hy1 Hy2].
      apply String.eqb_eq in Hy2. destruct Hnotin.
      rewrite <- He, Hy2. now apply in_map. }
    rewrite Hnil. simpl. lia.
  - now apply IH.
Qed.

(** X14.  When no well position occurs twice in the platemap, the joined
    table has at most as many rows as the count table: each count row is
    kept at most once. *)
Theorem unique_wells_never_add_rows (cc pm out : DataFrame) (j : nat) :
  col_index "well_position" (columns pm) = Some j ->
  NoDup (map (cell j) (rows pm)) ->
  join_platemap cc pm = inr out ->
  List.length (rows out) <= List.length (rows cc).
Proof.
  intros Hj Hnd H.
  destruct (join_platemap_inv _ _ _ H) as (merged & Hm & _).
  destruct (merge_inv _ _ _ _ _ Hm) as (i & j' & Hi & Hj' & _).
  rewrite Hj in Hj'. injection Hj' as <-.
  rewrite (join_rows_length _ _ _ _ _ Hi Hj H).
  induction (rows cc) as [| l ls IH]; [simpl; lia |].
  change (map (fun l0 => List.length (matches i j (rows pm) l0)) (l :: ls))
    with (List.length (matches i j (rows pm) l)
          :: map (fun l0 => List.length (matches i j (rows pm) l0)) ls).
  change (list_sum (?a :: ?b)) with (a + list_sum b).
  pose proof (matches_at_most_one i j (rows pm) l Hnd). simpl. lia.
Qed.

Lemma unique_wells_never_add_rows_witness :
  List.length [["A01"; "12"; "DMSO"]]
  <= List.length (rows Sample.counts_with_B07).
Proof.
  apply (unique_wells_never_add_rows Sample.counts_with_B07 Sample.platemap
           {| columns := ["Image_Metadata_Well"; "cell_count"; "treatment"];
              rows := [["A01"; "12"; "DMSO"]] |} 2).
  - reflexivity.
  - simpl. repeat constructor; simpl; intuition discriminate.
  - reflexivity.
Defined.

(** ** The dispatcher: pool creation and job outcomes *)

Lemma inputs_empty_iff (sm : Snakemake) :
  inputs sm = [] <->
  input_sql_files sm = [] \/ output_cell_counts sm = []
  \/ output_aggregate_profile sm = [].
Proof.
  destruct (zip6_shape (input_sql_files sm) (output_cell_counts sm)
              (output_aggregate_profile sm) (input_metadata sm)
              (input_barcodes sm) (params_aggregate_config sm))
    as (H1 & _).
  fold (inputs sm) in H1. split.
  - intros He. rewrite He in H1. simpl in H1.
    destruct (input_sql_files sm); [now left |].
    destruct (output_cell_counts sm); [right; now left |].
    destruct (output_aggregate_profile sm); [right; now right |].
    discriminate.
  - intros H. apply length_zero_iff_nil. rewrite H1.
    destruct H as [-> | [-> | ->]]; simpl; lia.
Qed.

(** X15.  No pool is created exactly when fewer than one worker is
    requested or one of the three per-plate lists is empty; the block
    then ends with the [ValueError] of [mp.Pool] and no job runs.  With
    an empty list and a positive worker count, the warning that announces
    0 workers is printed first. *)
Theorem pool_needs_a_worker_and_a_job (w : World) (sm : Snakemake) :
  (pool (main w sm) = None <->
   (threads sm < 1)%Z \/ input_sql_files sm = []
   \/ output_cell_counts sm = [] \/ output_aggregate_profile sm = [])
  /\ (pool (main w sm) = None ->
      raised (main w sm)
      = Some (Py.ValueError "Number of processes must be at least 1"))
  /\ (inputs sm = [] -> (0 < threads sm)%Z ->
      stdout (main w sm)
      = ["WARNING: number of specified cores ("
         ++ Py.str_of_int (threads sm)
         ++ ") exceeds number of inputs (0), defaulting to 0"]).
Proof.
  rewrite <- inputs_empty_iff.
  unfold main, clamp, warning.
  destruct (Z.gtb_spec (threads sm) (Z.of_nat (List.length (inputs sm))))
    as [Hgt | Hle].
  - destruct (Z.ltb_spec (Z.of_nat (List.length (inputs sm))) 1)
      as [Hlt | Hge]; cbn [pool raised stdout].
    + assert (He : inputs sm = [])
        by (apply length_zero_iff_nil; lia).
      repeat split; auto. intros _ _. now rewrite He.
    + repeat split; try discriminate.
      * intros [H | H]; [lia |]. rewrite H in Hge. simpl in Hge. lia.
      * intros H. rewrite H in Hge. simpl in Hge. lia.
  - destruct (Z.ltb_spec (threads sm) 1) as [Hlt | Hge];
      cbn [pool raised stdout].
    + repeat split; auto. intros H. rewrite H in Hle. simpl in Hle. lia.
    + repeat split; try discriminate.
      * intros [H | H]; [lia |]. rewrite H in Hle. simpl in Hle. lia.
      * intros H. rewrite H in Hle. simpl in Hle. lia.
Qed.

Lemma first_error_none (outs : list (run unit)) :
  first_error outs = None <->
  forall r, In r outs -> exists u, result r = inr u.
Proof.
  induction outs as [| o outs IH]; simpl.
  - split; [intros _ r [] | reflexivity].
  - destruct (result o) as [e | u] eqn:E.
    + split; [discriminate |]. intros H.
      destruct (H o (or_introl eq_refl)) as [u Hu]. congruence.
    + rewrite IH. split.
      * intros H r [<- | Hr]; [now exists u | now apply H].
      * intros H r Hr. apply H. now right.
Qed.

Lemma first_error_some (outs : list (run unit)) (e : Py.exn) :
  first_error outs = Some e -> exists r, In r outs /\ result r = inl e.
Proof.
  induction outs as [| o outs IH]; simpl; [discriminate |].
  destruct (result o) as [e' | u] eqn:E.
  - intros [= <-]. exists o. auto.
  - intros H. destruct (IH H) as (r & Hr & He). exists r. auto.
Qed.

(** X16.  Once the pool exists, the block ends without exception exactly
    when every job has returned; and an exception that ends it is the
    one that some job raised. *)
Theorem main_succeeds_iff_all_jobs_do (w : World) (sm : Snakemake)
  (p : Pool) :
  pool (main w sm) = Some p ->
  (raised (main w sm) = None <->
   forall r, In r (outcomes p) -> exists u, result r = inr u)
  /\ (forall e, raised (main w sm) = Some e ->
                exists r, In r (outcomes p) /\ result r = inl e).
Proof.
  unfold main. destruct (clamp _ _) as [printed n_cores].
  destruct (n_cores <? 1)%Z; [discriminate |].
  cbn [pool raised]. intros [= <-]. cbn [outcomes].
  split; [apply first_error_none | apply first_error_some].
Qed.

Lemma main_succeeds_iff_all_jobs_do_witness :
  raised (main Sample.world (Sample.snakemake 4)) = None <->
  forall r, In r (starmap Sample.world (inputs (Sample.snakemake 4))) ->
            exists u, result r = inr u.
Proof.
  apply (main_succeeds_iff_all_jobs_do Sample.world (Sample.snakemake 4)
           {| processes := 1;
              outcomes := starmap Sample.world
                                  (inputs (Sample.snakemake 4)) |}).
  reflexivity.
Defined.

Lemma nth_error_firstn_some {A : Type} (l : list A) (n k : nat) (x : A) :
  nth_error (firstn n l) k = Some x -> nth_error l k = Some x.
Proof.
  revert n k. induction l as [| a l IH]; intros n k.
  - rewrite firstn_nil. now destruct k.
  - destruct n; [destruct k; discriminate |].
    destruct k; simpl; [auto | apply IH].
Qed.

Lemma jobs_shape_for_pool (w : World) (sm : Snakemake) (p : Pool) :
  pool (main w sm) = Some p ->
  outcomes p = map (Dispatcher.call w) (inputs sm)
  /\ (exists n, map cell_count_out (inputs sm)
                = firstn n (output_cell_counts sm))
  /\ (exists n, map aggregate_file_out (inputs sm)
                = firstn n (output_aggregate_profile sm)).
Proof.
  intros H.
  destruct (zip6_shape (input_sql_files sm) (output_cell_counts sm)
              (output_aggregate_profile sm) (input_metadata sm)
              (input_barcodes sm) (params_aggregate_config sm))
    as (_ & _ & H3 & H4 & _).
  fold (inputs sm) in H3, H4.
  split; [| split; eexists; eassumption].
  unfold main in H. destruct (clamp _ _) as [printed n_cores].
  destruct (n_cores <? 1)%Z; [discriminate |].
  injection H as <-. reflexivity.
Qed.

Lemma writes_shape (w : World)
  (sql_file metadata_dir barcode_path cell_count_out aggregate_file_out
   config : string) :
  let job := aggregate w sql_file metadata_dir barcode_path cell_count_out
                       aggregate_file_out config in
  writes job = []
  \/ exists file,
       writes job = [ToCsv cell_count_out file;
                     AggregateProfiles aggregate_file_out "gzip"].
Proof.
  cbv zeta.
  destruct (aggregate_reads_cases w sql_file metadata_dir barcode_path
              cell_count_out aggregate_file_out config)
    as [[e He] | (cfgs & bdf & platemap & pdf & args & Hc & Hb & Hl & Hp & Ha)].
  - rewrite He. now left.
  - rewrite (aggregate_after_reads _ _ _ _ _ _ _ _ _ _ _ _ Hc Hb Hl Hp Ha).
    destruct (SingleCells w args) as [e | ]; [now left |].
    destruct (count_cells w args) as [e | cc]; [now left |].
    destruct (join_platemap cc pdf) as [e | out]; [now left |].
    destruct (to_csv_error w cell_count_out) as [e | ]; [now left |].
    right. eexists. reflexivity.
Qed.

(** X17.  The job at position [k] of the pool writes only to the paths at
    position [k] of the two output lists: its cell-count file goes to
    the [k]-th cell-count path and its aggregate profile to the [k]-th
    aggregate-profile path; it writes to no path of another plate. *)
Theorem pooled_job_writes_its_own_outputs (w : World) (sm : Snakemake)
  (p : Pool) (k : nat) (r : run unit) (ev : event) :
  pool (main w sm) = Some p ->
  nth_error (outcomes p) k = Some r ->
  In ev (writes r) ->
  exists cco afo,
    nth_error (output_cell_counts sm) k = Some cco
    /\ nth_error (output_aggregate_profile sm) k = Some afo
    /\ ((exists file, ev = ToCsv cco file)
        \/ ev = AggregateProfiles afo "gzip").
Proof.
  intros Hp Hk Hev.
  destruct (jobs_shape_for_pool w sm p Hp) as (Hout & [n3 H3] & [n4 H4]).
  rewrite Hout in Hk. rewrite nth_error_map in Hk.
  destruct (nth_error (inputs sm) k) as [j | ] eqn:Hj; [| discriminate].
  injection Hk as <-.
  exists (cell_count_out j), (aggregate_file_out j).
  split; [| split].
  - apply (nth_error_firstn_some _ _ _ _
             (eq_trans (f_equal (fun l => nth_error l k) (eq_sym H3))
                       (eq_trans (nth_error_map _ _ _)
                                 (f_equal (option_map _) Hj)))).
  - apply (nth_error_firstn_some _ _ _ _
             (eq_trans (f_equal (fun l => nth_error l k) (eq_sym H4))
                       (eq_trans (nth_error_map _ _ _)
                                 (f_equal (option_map _) Hj)))).
  - unfold Dispatcher.call in Hev.
    destruct (writes_shape w (Dispatcher.sql_file j) (metadata_dir j)
                (barcode_path j) (cell_count_out j) (aggregate_file_out j)
                (Dispatcher.config j)) as [He | [file He]];
      rewrite He in Hev.
    + destruct Hev.
    + destruct Hev as [<- | [<- | []]]; [left; now exists file | now right].
Qed.

Lemma pooled_job_writes_its_own_outputs_witness :
  exists cco afo,
    nth_error (output_cell_counts (Sample.snakemake 4)) 0 = Some cco
    /\ nth_error (output_aggregate_profile (Sample.snakemake 4)) 0
       = Some afo
    /\ ((exists file,
            AggregateProfiles "results/PlateA.csv.gz" "gzip"
            = ToCsv cco file)
        \/ AggregateProfiles "results/PlateA.csv.gz" "gzip"
           = AggregateProfiles afo "gzip").
Proof.
  apply (pooled_job_writes_its_own_outputs Sample.world (Sample.snakemake 4)
           {| processes := 1;
              outcomes := starmap Sample.world
                                  (inputs (Sample.snakemake 4)) |}
           0 (Sample.run_PlateA Sample.world)).
  - reflexivity.
  - reflexivity.
  - vm_compute. right. left. reflexivity.
Defined.

(** ** The project paths of [cyto_paths.py] *)

(** X18.  Given a string, [is_cytosnake_dir] never answers: when the
    guard rejects the string it raises [ValueError], and when the guard
    accepts it, [Path(str)] raises [TypeError]; the file system is not
    looked at. *)
Theorem is_cytosnake_dir_fails_on_strings
  (is_valid_path : pathlike -> bool) (fs : FileSystem) (cwd : Path)
  (s : string) :
  is_cytosnake_dir is_valid_path fs cwd (Some (PStr s))
  = (if is_valid_path (PStr s) then inl Py.TypeError
     else inl (Py.ValueError
                 "dir_path must be either str or Path type, not: <class 'str'>"))
  /\ forall b, is_cytosnake_dir is_valid_path fs cwd (Some (PStr s))
               <> inr b.
Proof.
  unfold is_cytosnake_dir.
  destruct (is_valid_path (PStr s)); simpl; split;
    try reflexivity; intros b; discriminate.
Qed.

(** X19.  When the guard accepts the working directory,
    [is_cytosnake_dir()] without argument answers as for that directory,
    with whether its [.cytosnake] entry exists; it answers [True] exactly
    when [get_project_root] returns, and then the root returned is the
    working directory; it answers [False] exactly when
    [get_project_root] raises. *)
Theorem is_cytosnake_dir_agrees_with_project_root
  (is_valid_path : pathlike -> bool) (fs : FileSystem) (cwd : Path) :
  is_valid_path (PPath cwd) = true ->
  is_cytosnake_dir is_valid_path fs cwd None
  = inr (fs (truediv cwd ".cytosnake"))
  /\ is_cytosnake_dir is_valid_path fs cwd None
     = is_cytosnake_dir is_valid_path fs cwd (Some (PPath cwd))
  /\ (is_cytosnake_dir is_valid_path fs cwd None = inr true
      <-> get_project_root fs cwd = inr cwd)
  /\ (is_cytosnake_dir is_valid_path fs cwd None = inr false
      <-> exists e, get_project_root fs cwd = inl e)
  /\ (forall root, get_project_root fs cwd = inr root -> root = cwd).
Proof.
  intros Hv. unfold is_cytosnake_dir, get_project_root. rewrite Hv.
  cbn [negb truth CytoPaths.call getattr_exists].
  destruct (fs (truediv cwd ".cytosnake")); cbn [negb].
  - repeat split; try reflexivity; try discriminate.
    + intros [e He]. discriminate.
    + now intros root [= <-].
  - repeat split; try reflexivity; try discriminate.
    + intros _. eexists. reflexivity.
Qed.

Lemma is_cytosnake_dir_agrees_with_project_root_witness :
  is_cytosnake_dir (fun _ => true) Cases.project_fs Cases.project None
  = inr true
  /\ get_project_root Cases.project_fs Cases.project = inr Cases.project.
Proof.
  destruct (is_cytosnake_dir_agrees_with_project_root
              (fun _ => true) Cases.project_fs Cases.project eq_refl)
    as (H1 & _ & H3 & _).
  assert (H : is_cytosnake_dir (fun _ => true) Cases.project_fs
                               Cases.project None = inr true).
  { rewrite H1. vm_compute. reflexivity. }
  split; [exact H | now apply H3].
Defined.

(** X20.  Outside a project folder, [get_workflow_fpaths] and
    [get_config_fpaths] raise the error of [get_project_root] and
    neither the guard nor the search is asked; in a project folder they
    raise their own [FileNotFoundError] when the guard rejects
    [workflows], respectively [configs], under the working directory,
    and else return what the search finds in that one directory. *)
Theorem fpaths_need_project_then_directory
  (is_valid_path : pathlike -> bool) (Found : Type)
  (file_search : Path -> Py.exn + Found) (fs : FileSystem) (cwd : Path) :
  let workflows := get_workflow_fpaths is_valid_path Found file_search
                                       fs cwd in
  let configs := get_config_fpaths is_valid_path Found file_search fs cwd in
  (fs (truediv cwd ".cytosnake") = false ->
   workflows
   = inl (Py.FileNotFoundError "Current directory is not a project folder")
   /\ configs
      = inl (Py.FileNotFoundError
               "Current directory is not a project folder"))
  /\ (fs (truediv cwd ".cytosnake") = true ->
      workflows
      = (if is_valid_path (PPath (truediv cwd "workflows"))
         then file_search (truediv cwd "workflows")
         else inl (Py.FileNotFoundError
                     "Unable to find workflow directory"))
      /\ configs
         = (if is_valid_path (PPath (truediv cwd "configs"))
            then file_search (truediv cwd "configs")
            else inl (Py.FileNotFoundError
                        "Unable to find config directory"))).
Proof.
  cbv zeta. unfold get_workflow_fpaths, get_config_fpaths, get_project_root.
  cbn [negb truth CytoPaths.call getattr_exists].
  split; intros ->; cbn [negb]; [split; reflexivity |].
  split.
  - now destruct (is_valid_path (PPath (truediv cwd "workflows"))).
  - now destruct (is_valid_path (PPath (truediv cwd "configs"))).
Qed.

Lemma fpaths_need_project_then_directory_witness :
  get_workflow_fpaths (fun _ => true) (list string)
                      (fun _ => inr ["Snakefile"])
                      (fun _ => false) Cases.project
  = inl (Py.FileNotFoundError "Current directory is not a project folder")
  /\ get_config_fpaths (fun _ => false) (list string)
                       (fun _ => inr ["Snakefile"])
                       Cases.project_fs Cases.project
     = inl (Py.FileNotFoundError "Unable to find config directory").
Proof.
  destruct (fpaths_need_project_then_directory
              (fun _ => true) (list string) (fun _ => inr ["Snakefile"])
              (fun _ => false) Cases.project) as [H1 _].
  destruct (fpaths_need_project_then_directory
              (fun _ => false) (list string) (fun _ => inr ["Snakefile"])
              Cases.project_fs Cases.project) as [_ H2].
  split; [now apply H1 | apply H2; vm_compute; reflexivity].
Defined.

Lemma name_truediv (p : Path) (n : string) : name (truediv p n) = n.
Proof. unfold name, truediv. simpl. apply last_last. Qed.

Lemma dict_set_keys (d : dict) (k v k0 : string) :
  In k0 (map fst (dict_set d k v)) <-> k0 = k \/ In k0 (map fst d).
Proof.
  induction d as [| [k' v'] d IH]; simpl.
  - intuition.
  - destruct (String.eqb_spec k' k) as [-> | Hne]; simpl.
    + intuition.
    + rewrite IH. intuition.
Qed.

Lemma dict_set_NoDup (d : dict) (k v : string) :
  NoDup (map fst d) -> NoDup (map fst (dict_set d k v)).
Proof.
  induction d as [| [k' v'] d IH]; simpl; intros H.
  - repeat constructor. intros [].
  - inversion H as [| x l Hnotin Hnd]. subst.
    destruct (String.eqb_spec k' k) as [-> | Hne]; simpl.
    + now constructor.
    + constructor; [| now apply IH].
      rewrite dict_set_keys. intros [He | Hin]; [now destruct Hne | auto].
Qed.

Lemma dict_set_In (d : dict) (k v k0 v0 : string) :
  In (k0, v0) (dict_set d k v) -> (k0 = k /\ v0 = v) \/ In (k0, v0) d.
Proof.
  induction d as [| [k' v'] d IH]; simpl.
  - intros [[= <- <-] | []]. now left.
  - destruct (String.eqb k' k); simpl.
    + intros [[= <- <-] | H]; [now left | right; now right].
    + intros [H | H]; [right; now left |].
      destruct (IH H) as [H' | H']; [now left | right; now right].
Qed.

Lemma collect_dirs_spec (ls : Listing) (cwd : Path) (files : list Path)
  (acc : dict) :
  let kept f := (negb (existsb (String.eqb (name f)) ignore_dirs)
                 && is_dir ls f)%bool in
  (NoDup (map fst acc) ->
   NoDup (map fst (collect_dirs ls cwd files acc)))
  /\ (forall k, In k (map fst (collect_dirs ls cwd files acc)) <->
                In k (map fst acc)
                \/ exists f, In f files /\ name f = k /\ kept f = true)
  /\ (forall k v, In (k, v) (collect_dirs ls cwd files acc) ->
                  In (k, v) acc
                  \/ exists f, In f files /\ name f = k
                               /\ v = str (absolute cwd f)).
Proof.
  cbv zeta. revert acc. induction files as [| f files IH]; intros acc.
  - simpl. repeat split; auto.
    + intros [H | (f & [] & _)]. exact H.
  - cbn [collect_dirs].
    destruct (existsb (String.eqb (name f)) ignore_dirs) eqn:Eig;
      [| destruct (is_dir ls f) eqn:Edir].
    + destruct (IH acc) as (I1 & I2 & I3). split; [exact I1 |]. split.
      * intros k. rewrite I2. split.
        -- intros [H | (g & Hg & Hn & Hk)]; [now left |].
           right. exists g. split; [now right | auto].
        -- intros [H | (g & [<- | Hg] & Hn & Hk)]; [now left | |].
           ++ rewrite Eig in Hk. discriminate.
           ++ right. now exists g.
      * intros k v H. destruct (I3 k v H) as [H' | (g & Hg & Hn & Hv)];
          [now left |].
        right. exists g. split; [now right | auto].
    + destruct (IH (dict_set acc (name f) (str (absolute cwd f))))
        as (I1 & I2 & I3).
      split; [intros H; apply I1; now apply dict_set_NoDup |]. split.
      * intros k. rewrite I2, dict_set_keys. split.
        -- intros [[-> | H] | (g & Hg & Hn & Hk)].
           ++ right. exists f. split; [now left |].
              now rewrite Eig, Edir.
           ++ now left.
           ++ right. exists g. split; [now right | auto].
        -- intros [H | (g & [<- | Hg] & Hn & Hk)].
           ++ left. now right.
           ++ left. left. now symmetry.
           ++ right. now exists g.
      * intros k v H. destruct (I3 k v H) as [H' | (g & Hg & Hn & Hv)].
        -- destruct (dict_set_In _ _ _ _ _ H') as [[-> ->] | H''];
             [| now left].
           right. exists f. split; [now left | auto].
        -- right. exists g. split; [now right | auto].
    + destruct (IH acc) as (I1 & I2 & I3). split; [exact I1 |]. split.
      * intros k. rewrite I2. split.
        -- intros [H | (g & Hg & Hn & Hk)]; [now left |].
           right. exists g. split; [now right | auto].
        -- intros [H | (g & [<- | Hg] & Hn & Hk)]; [now left | |].
           ++ rewrite Edir, andb_false_r in Hk. discriminate.
           ++ right. now exists g.
      * intros k v H. destruct (I3 k v H) as [H' | (g & Hg & Hn & Hv)];
          [now left |].
        right. exists g. split; [now right | auto].
Qed.

(** X21.  [get_project_dirpaths] raises outside a project folder.  In
    one, the dictionary it returns has each key once; its keys are
    exactly the entries of the working directory that are directories
    and are not [.vscode], [.git] or [CytoSnake.egg-info]; and the value
    under a key is the string of the absolute path of that entry. *)
Theorem project_dirpaths_lists_directories (fs : FileSystem) (ls : Listing)
  (cwd : Path) :
  (fs (truediv cwd ".cytosnake") = false ->
   get_project_dirpaths fs ls cwd
   = inl (Py.FileNotFoundError "Current directory is not a project folder"))
  /\ (fs (truediv cwd ".cytosnake") = true ->
      exists d,
        get_project_dirpaths fs ls cwd = inr d
        /\ NoDup (map fst d)
        /\ (forall k, In k (map fst d) <->
                      In k (entries ls cwd) /\ ~ In k ignore_dirs
                      /\ is_dir ls (truediv cwd k) = true)
        /\ (forall k v, In (k, v) d ->
                        v = str (absolute cwd (truediv cwd k)))).
Proof.
  unfold get_project_dirpaths, get_project_root.
  cbn [negb truth CytoPaths.call getattr_exists].
  split; intros ->; cbn [negb]; [reflexivity |].
  eexists. split; [reflexivity |].
  destruct (collect_dirs_spec ls cwd (glob_star ls cwd) [])
    as (I1 & I2 & I3).
  split; [apply I1; constructor |]. split.
  - intros k. rewrite I2. unfold glob_star. split.
    + intros [[] | (f & Hf & Hn & Hk)]. apply in_map_iff in Hf.
      destruct Hf as (n & <- & Hin). rewrite name_truediv in Hn, Hk.
      subst n. apply andb_true_iff in Hk. destruct Hk as [Hig Hdir].
      split; [exact Hin |]. split; [| exact Hdir].
      intros Hbad. apply negb_true_iff in Hig.
      assert (Ht : existsb (String.eqb k) ignore_dirs = true).
      { apply existsb_exists. exists k.
        split; [exact Hbad | apply String.eqb_refl]. }
      congruence.
    + intros (Hin & Hig & Hdir). right. exists (truediv cwd k).
      split; [now apply in_map |]. rewrite name_truediv.
      split; [reflexivity |]. rewrite Hdir, andb_true_r.
      apply negb_true_iff.
      destruct (existsb (String.eqb k) ignore_dirs) eqn:E; [| reflexivity].
      apply existsb_exists in E. destruct E as (x & Hx & He).
      apply String.eqb_eq in He. subst x. now destruct Hig.
  - intros k v H. destruct (I3 k v H) as [[] | (f & Hf & Hn & ->)].
    unfold glob_star in Hf. apply in_map_iff in Hf.
    destruct Hf as (n & <- & _). rewrite name_truediv in Hn. now subst n.
Qed.

Lemma project_dirpaths_lists_directories_witness :
  exists d,
    get_project_dirpaths Cases.project_fs Cases.project_listing
                         Cases.project = inr d
    /\ NoDup (map fst d)
    /\ (forall k, In k (map fst d) <->
                  In k (entries Cases.project_listing Cases.project)
                  /\ ~ In k ignore_dirs
                  /\ is_dir Cases.project_listing
                            (truediv Cases.project k) = true)
    /\ (forall k v, In (k, v) d ->
                    v = str (absolute Cases.project
                                      (truediv Cases.project k))).
Proof.
  apply (project_dirpaths_lists_directories Cases.project_fs
           Cases.project_listing Cases.project).
  vm_compute. reflexivity.
Defined.

(** ** The command line of [cmd.py] *)

Lemma is_True_iff (x : Py.obj) : Cli.is_True x = true <-> x = Py.PyBool true.
Proof.
  destruct x as [ | [|] | | | | | ]; simpl; split; congruence.
Qed.

Lemma case_str_iff (x : Py.obj) (literal : string) :
  Cli.case_str x literal = true <-> x = Py.PyStr literal.
Proof.
  destruct x; simpl; split; try congruence.
  - intros H. apply String.eqb_eq in H. now subst.
  - intros [= ->]. apply String.eqb_refl.
Qed.

(** X22.  [run_cmd] prints the handler first, whatever follows.  It
    parses the [init] arguments exactly when the help flag is not [True],
    the mode is ["init"] and the mode-help flag is not [True]; it leaves
    through [sys.exit] exactly when the help flag is [True], or the mode
    is ["init"] with the mode-help flag [True], and always with status 0;
    and with the help flag [True] the general documentation is printed
    whatever the mode. *)
Theorem run_cmd_parses_only_in_init_mode (cli_docs init_doc : string)
  (h : Cli.CliControlPanel) :
  let events := fst (Cli.run_cmd cli_docs init_doc h) in
  let out := snd (Cli.run_cmd cli_docs init_doc h) in
  hd_error events = Some (Cli.Print (Cli.repr h))
  /\ (In Cli.ParseInitArgs events <->
      Cli.cli_help h <> Py.PyBool true
      /\ Cli.mode h = Py.PyStr "init"
      /\ Cli.mode_help h <> Py.PyBool true)
  /\ (forall code, out = Cli.Exited code -> code = 0%Z)
  /\ ((exists code, out = Cli.Exited code) <->
      Cli.cli_help h = Py.PyBool true
      \/ (Cli.mode h = Py.PyStr "init"
          /\ Cli.mode_help h = Py.PyBool true))
  /\ (Cli.cli_help h = Py.PyBool true ->
      events = [Cli.Print (Cli.repr h); Cli.Print cli_docs]).
Proof.
  cbv zeta. unfold Cli.run_cmd.
  pose proof (is_True_iff (Cli.cli_help h)) as Hh.
  pose proof (is_True_iff (Cli.mode_help h)) as Hmh.
  pose proof (case_str_iff (Cli.mode h) "init") as Hm.
  destruct (Cli.is_True (Cli.cli_help h));
    [| destruct (Cli.case_str (Cli.mode h) "init");
       [destruct (Cli.is_True (Cli.mode_help h)) |]];
    destruct (Cli.parse_init_args h);
    cbn [fst snd app hd_error In];
    (split; [reflexivity |]);
    (split; [split; [intros H | intros (H1 & H2 & H3)] |]);
    try (split; [intros code H |]);
    try (split; [split; [intros [code H] | intros [H | [H1 H2]]] |]);
    try (intros H);
    try (exists 0%Z);
    try reflexivity;
    try congruence;
    try tauto;
    try (intuition congruence).
Qed.

(** X23.  With the help flag not [True], every mode other than ["init"]
    (so also ["run"] and ["help"]) does nothing: the handler is printed,
    no documentation is, nothing is parsed or executed, and the call
    returns. *)
Theorem other_modes_do_nothing (cli_docs init_doc : string)
  (h : Cli.CliControlPanel) :
  Cli.cli_help h <> Py.PyBool true ->
  Cli.mode h <> Py.PyStr "init" ->
  Cli.run_cmd cli_docs init_doc h
  = ([Cli.Print (Cli.repr h)], Cli.Returned).
Proof.
  intros Hh Hm. unfold Cli.run_cmd.
  destruct (Cli.is_True (Cli.cli_help h)) eqn:Eh.
  - apply is_True_iff in Eh. now destruct Hh.
  - destruct (Cli.case_str (Cli.mode h) "init") eqn:Em; [| reflexivity].
    apply case_str_iff in Em. now destruct Hm.
Qed.

Lemma other_modes_do_nothing_witness :
  Cli.run_cmd "usage: cytopipe [mode]" "usage: cytopipe init"
              {| Cli.repr := "CliControlPanel(mode=help)";
                 Cli.cli_help := Py.PyBool false;
                 Cli.mode := Py.PyStr "help";
                 Cli.mode_help := Py.PyBool false;
                 Cli.parse_init_args := None |}
  = ([Cli.Print "CliControlPanel(mode=help)"], Cli.Returned).
Proof.
  apply (other_modes_do_nothing "usage: cytopipe [mode]"
           "usage: cytopipe init"
           {| Cli.repr := "CliControlPanel(mode=help)";
              Cli.cli_help := Py.PyBool false;
              Cli.mode := Py.PyStr "help";
              Cli.mode_help := Py.PyBool false;
              Cli.parse_init_args := None |}); discriminate.
Defined.
